(** * minimal-python-app: a shallow embedding of the web application

    The repository is three Python modules:
    - [k8s_utils.py]: the class [K8sClient] and the helper [get_env_var];
    - [webtest.py]: the class [WebTest], six Bottle routes and their handlers;
    - [main.py]: the entry point [main].

    Python code runs against a mutable process: the environment
    [os.environ], the file system, the Kubernetes API, the logging
    handlers.  The embedding threads a [world] through every function.  The
    world holds the environment, the answers of the outside (file system,
    libraries, cluster) and a trace of everything the code did to the
    outside.  Exceptions are explicit: a computation returns [Ok v] or
    [Raise r].

    A Python [str] is the [string] of its UTF-8 bytes.  Equality of two
    [str] is equality of their bytes, and an ASCII text occurs in a [str]
    exactly when its bytes occur in the bytes of the [str]. *)

From Stdlib Require Import ZArith String Ascii List Lia.
From stdpp Require Import base option gmap strings list fin_maps.

Open Scope string_scope.
Local Set Warnings "-register-all".

(** ** Python values that end up in a response body *)

(** The handlers return [dict]s whose values are strings, booleans, [None]
    or nested dicts.  Keys are strings. *)
Inductive value : Type :=
  | VNone
  | VBool (b : bool)
  | VStr (s : string)
  | VDict (d : gmap string value).

(** A dict literal [{k1: v1, ..., kn: vn}]: keys are stored left to right,
    a later duplicate overwrites an earlier one. *)
Definition dict_of (kvs : list (string * value)) : gmap string value :=
  fold_left (fun d kv => <[kv.1 := kv.2]> d) kvs ∅.

Arguments dict_of : simpl never.

(** [d.update(other)]: every key of [other] is written into [d]. *)
Definition dict_update (d other : gmap string value) : gmap string value :=
  other ∪ d.

(** ** Exceptions *)

(** The exception classes the three modules distinguish or produce.  All of
    them derive from [Exception]; [ModuleNotFoundError] derives from
    [ImportError]. *)
Inductive exc_class : Type :=
  | ImportError
  | ModuleNotFoundError
  | ValueError
  | AttributeError
  | OtherException (name : string).

(** An instance of [Exception]; [exc_msg] is [str(e)]. *)
Record exception : Type := mkException {
  exc_type : exc_class;
  exc_msg : string
}.

(** What can unwind the stack: an [Exception], or the [SystemExit] that
    [sys.exit(code)] raises.  [SystemExit] derives from [BaseException]
    only, so [except Exception] does not catch it. *)
Inductive raised : Type :=
  | RException (e : exception)
  | RSystemExit (code : Z).

Inductive result (A : Type) : Type :=
  | Ok (a : A)
  | Raise (r : raised).
Arguments Ok {A} a.
Arguments Raise {A} r.

(** [isinstance(e, ImportError)] *)
Definition is_ImportError (e : exception) : bool :=
  match exc_type e with
  | ImportError | ModuleNotFoundError => true
  | _ => false
  end.

(** ** The outside of the process *)

(** The Kubernetes client's models, as far as the code reads them.  Every
    attribute of these models may be [None]. *)
Record datetime : Type := mkDatetime {
  year : Z; month : Z; day : Z; hour : Z; minute : Z; second : Z
}.

Record V1ObjectMeta : Type := mkMeta {
  meta_name : option string;
  meta_namespace : option string;
  creation_timestamp : option datetime
}.

Record V1PodSpec : Type := mkSpec { node_name : option string }.
Record V1PodStatus : Type := mkStatus { pod_ip : option string }.

Record V1Pod : Type := mkPod {
  metadata : option V1ObjectMeta;
  spec : option V1PodSpec;
  status : option V1PodStatus
}.

Record VersionInfo : Type := mkVersionInfo {
  git_version : string;
  platform : string;
  go_version : string
}.

(** The handle [client.CoreV1Api()] returns. *)
Inductive CoreV1Api : Type := CoreV1Api_handle.

(** A call into a library returns or raises an [Exception]. *)
Inductive answer (A : Type) : Type :=
  | Returns (a : A)
  | Fails (e : exception).
Arguments Returns {A} a.
Arguments Fails {A} e.

(** How the file system, the interpreter, the libraries and the cluster
    answer.  Nothing of this is code of the repository, every function of
    the embedding takes it as given. *)
Record outside : Type := mkOutside {
  (* os.path.exists *)
  path_exists : string -> bool;
  (* kubernetes.config *)
  load_incluster_config : answer unit;
  load_kube_config : answer unit;
  (* kubernetes.client *)
  new_CoreV1Api : answer CoreV1Api;
  read_namespaced_pod : string -> string -> answer V1Pod;
  version_get_code : answer VersionInfo;
  (* import bottle / import kubernetes, answering with __version__ *)
  import_bottle : answer string;
  import_kubernetes : answer string;
  (* sys.version, platform.platform(), platform.python_implementation() *)
  sys_version : string;
  platform_platform : string;
  python_implementation : string;
  (* the builtin int() on a str: the integer, or the ValueError it raises
     when the text is no integer literal *)
  int_of_str : string -> answer Z;
  (* the builtin str.lower(), on every letter Unicode knows a lower case
     for, ASCII or not *)
  lower : string -> string;
  (* datetime.strftime *)
  strftime : datetime -> string -> string;
  (* Bottle.run(host, port): returns when the server stops, or raises *)
  bottle_run : string -> Z -> answer unit
}.

Inductive level : Type := INFO | WARNING | ERROR.

(** A log record's message.  Messages made of text only are kept as text,
    the others keep the interpolated values. *)
Inductive log_msg : Type :=
  | Msg (text : string)
  | MsgEnvVars (env_vars : gmap string string)
  | MsgStartingOn (app_name environment host : string) (port : Z)
  | MsgListening (host : string) (port : Z)
  | MsgRunningInK8s (flag : bool).

(** Everything the code does to the outside, and every attribute it
    assigns, in the order it happens. *)
Inductive event : Type :=
  | EnvGet (name : string)                       (* os.environ.get(name, _) *)
  | EnvItems                                     (* os.environ.items() *)
  | PathExists (path : string)
  | LoadInclusterConfig
  | LoadKubeConfig
  | NewCoreV1Api
  | ReadNamespacedPod (name namespace : string)  (* a request to the cluster *)
  | VersionGetCode                               (* a request to the cluster *)
  | Import (module : string)
  | BottleRun (host : string) (port : Z)
  | SetAttr (class attr : string)                (* self.attr = ... *)
  | Log (logger : string) (lvl : level) (msg : log_msg).

(** The process as the code sees it.  [response_content_type] is the
    [content_type] of Bottle's [response] object. *)
Record world : Type := mkWorld {
  environ : gmap string string;
  out : outside;
  trace : list event;
  response_content_type : string
}.

Definition emit (e : event) (w : world) : world :=
  {| environ := environ w; out := out w;
     trace := trace w ++ [e];
     response_content_type := response_content_type w |}.

Definition with_content_type (ct : string) (w : world) : world :=
  {| environ := environ w; out := out w;
     trace := trace w;
     response_content_type := ct |}.

(** ** Computations

    A method runs on its object [self : S] and on the world.  It returns a
    value or raises, and leaves an object and a world behind in both
    cases. *)
Definition M (S A : Type) : Type := S -> world -> result A * S * world.

Definition ret {S A} (a : A) : M S A := fun s w => (Ok a, s, w).

Definition bind {S A B} (m : M S A) (k : A -> M S B) : M S B :=
  fun s w =>
    match m s w with
    | (Ok a, s1, w1) => k a s1 w1
    | (Raise r, s1, w1) => (Raise r, s1, w1)
    end.

(** stdpp's notations [x ← m; k] and [m;; k] for [bind]. *)
#[global] Instance M_ret {S} : MRet (M S) := fun A => @ret S A.
#[global] Instance M_bind {S} : MBind (M S) := fun A B k m => @bind S A B m k.

Definition raise {S A} (r : raised) : M S A := fun s w => (Raise r, s, w).

(** [try: body  except Exception as e: handler(e)] *)
Definition try_except {S A} (body : M S A) (handler : exception -> M S A) : M S A :=
  fun s w =>
    match body s w with
    | (Raise (RException e), s1, w1) => handler e s1 w1
    | other => other
    end.

(** [try: body  except ImportError as e: handler(e)] *)
Definition try_except_ImportError {S A} (body : M S A) (handler : exception -> M S A)
  : M S A :=
  fun s w =>
    match body s w with
    | (Raise (RException e), s1, w1) =>
        if is_ImportError e then handler e s1 w1 else (Raise (RException e), s1, w1)
    | other => other
    end.

Definition do_event {S} (e : event) : M S unit := fun s w => (Ok tt, s, emit e w).

Definition ask {S A} (f : world -> A) : M S A := fun s w => (Ok (f w), s, w).

(** A call into a library: the event, then the outside's answer. *)
Definition call {S A} (e : event) (f : outside -> answer A) : M S A :=
  fun s w =>
    match f (out w) with
    | Returns a => (Ok a, s, emit e w)
    | Fails x => (Raise (RException x), s, emit e w)
    end.

(** [self.attr]: an attribute that was never assigned raises
    [AttributeError]. *)
Definition getattr {S A} (class attr : string) (proj : S -> option A) : M S A :=
  fun s w =>
    match proj s with
    | Some a => (Ok a, s, w)
    | None =>
        (Raise (RException (mkException AttributeError
           ("'" +:+ class +:+ "' object has no attribute '" +:+ attr +:+ "'"))), s, w)
    end.

(** [self.attr = v] *)
Definition setattr {S} (class attr : string) (upd : S -> S) : M S unit :=
  fun s w => (Ok tt, upd s, emit (SetAttr class attr) w).

(** [self.field.method()]: run a method of the object stored in an
    attribute, and store the object it leaves behind. *)
Definition on_attr {S T A} (class attr : string)
    (proj : S -> option T) (upd : T -> S -> S) (m : M T A) : M S A :=
  fun s w =>
    match proj s with
    | Some t =>
        match m t w with
        | (r, t1, w1) => (r, upd t1 s, w1)
        end
    | None =>
        (Raise (RException (mkException AttributeError
           ("'" +:+ class +:+ "' object has no attribute '" +:+ attr +:+ "'"))), s, w)
    end.

(** [Class(args)]: run [__init__] on a fresh object without attributes and
    return the object. *)
Definition construct {S T} (fresh : T) (init : M T unit) : M S T :=
  fun s w =>
    match init fresh w with
    | (Ok _, t, w1) => (Ok t, s, w1)
    | (Raise r, _, w1) => (Raise r, s, w1)
    end.

(** [sys.exit(code)] *)
Definition sys_exit {S A} (code : Z) : M S A := raise (RSystemExit code).

(** [logger.info], [logger.warning], [logger.error] of the module's
    logger. *)
Definition logger_info {S} (logger : string) (m : log_msg) : M S unit :=
  do_event (Log logger INFO m).
Definition logger_warning {S} (logger : string) (m : log_msg) : M S unit :=
  do_event (Log logger WARNING m).
Definition logger_error {S} (logger : string) (m : log_msg) : M S unit :=
  do_event (Log logger ERROR m).

(** A question to the outside that cannot raise, such as
    [os.path.exists]. *)
Definition query {S A} (e : event) (f : outside -> A) : M S A :=
  fun s w => (Ok (f (out w)), s, emit e w).

(** [x.attr] on a value that may be [None]. *)
Definition attr_of {S A B} (o : option A) (attr : string) (proj : A -> B) : M S B :=
  match o with
  | Some a => mret (proj a)
  | None =>
      raise (RException (mkException AttributeError
        ("'NoneType' object has no attribute '" +:+ attr +:+ "'")))
  end.

(** [obj.method()] on a local object: the result and the object after the
    call. *)
Definition invoke {S T A} (obj : T) (m : M T A) : M S (A * T) :=
  fun s w =>
    match m obj w with
    | (Ok a, t, w1) => (Ok (a, t), s, w1)
    | (Raise r, _, w1) => (Raise r, s, w1)
    end.

(** ** Strings *)

(** [str.lower] restricted to ASCII: the letters A to Z move to a to z,
    every other byte stays.  It is the [lower] of the concrete worlds
    below and agrees with Python on ASCII text; the code itself takes
    [lower] from the outside, since Python lowers letters outside ASCII
    too. *)
Definition ascii_lower (c : ascii) : ascii :=
  let n := nat_of_ascii c in
  if (65 <=? n)%nat && (n <=? 90)%nat then ascii_of_nat (n + 32) else c.

Fixpoint str_lower (s : string) : string :=
  match s with
  | EmptyString => EmptyString
  | String c r => String (ascii_lower c) (str_lower r)
  end.

(** [needle in hay] on two [str]: [needle] occurs in [hay] as a contiguous
    run. *)
Fixpoint str_in (needle hay : string) : bool :=
  String.prefix needle hay ||
  match hay with
  | EmptyString => false
  | String _ rest => str_in needle rest
  end.

(** ** k8s_utils.py *)

(** The type of [os.environ.get(name, default)] is [str] or the type of
    [default].  [of_str] carries a [str] into that type: the identity for a
    [str] default, the left injection for the [int] default of [PORT]. *)
Class StrOr (D : Type) : Type := of_str : string -> D.
#[global] Instance StrOr_str : StrOr string := fun s => s.
#[global] Instance StrOr_int : StrOr (string + Z) := inl.

(** [os.environ.get(name, default)] *)
Definition os_environ_get {S D} `{StrOr D} (name : string) (default : D) : M S D :=
  do_event (EnvGet name);;
  v ← ask (fun w => environ w !! name);
  mret (from_option of_str default v).

(** [get_env_var(name, default)], k8s_utils.py line 86 *)
Definition get_env_var {S D} `{StrOr D} (name : string) (default : D) : M S D :=
  os_environ_get name default.

(** A value of a model that may be [None], as a value of a dict. *)
Definition VOptStr (o : option string) : value := from_option VStr VNone o.

Module K8sClient.

(** The attributes of an instance; [None] is an attribute that was never
    assigned. *)
Record t : Type := mk {
  in_cluster : option bool;
  core_api : option CoreV1Api;
  running_in_k8s : option bool
}.

Definition fresh : t := mk None None None.

Definition set_in_cluster (v : bool) (self : t) : t :=
  mk (Some v) (core_api self) (running_in_k8s self).
Definition set_core_api (v : CoreV1Api) (self : t) : t :=
  mk (in_cluster self) (Some v) (running_in_k8s self).
Definition set_running_in_k8s (v : bool) (self : t) : t :=
  mk (in_cluster self) (core_api self) (Some v).

Definition class : string := "K8sClient".
Definition logger : string := "k8s_utils".

Definition token_path : string :=
  "/var/run/secrets/kubernetes.io/serviceaccount/token".

(** line 20 *)
Definition _is_in_cluster : M t bool :=
  query (PathExists token_path) (fun o => path_exists o token_path).

(** line 24 *)
Definition _initialize_client : M t unit :=
  try_except
    (in_c ← getattr class "in_cluster" in_cluster;
     (if in_c : bool then
        logger_info logger (Msg "Running in Kubernetes cluster, loading in-cluster config");;
        call LoadInclusterConfig load_incluster_config
      else
        logger_info logger (Msg "Not running in Kubernetes cluster, using local kubeconfig");;
        call LoadKubeConfig load_kube_config);;
     api ← call NewCoreV1Api new_CoreV1Api;
     setattr class "core_api" (set_core_api api);;
     setattr class "running_in_k8s" (set_running_in_k8s true))
    (fun e =>
       logger_warning logger
         (Msg ("Failed to initialize Kubernetes client: " +:+ exc_msg e));;
       setattr class "running_in_k8s" (set_running_in_k8s false)).

(** line 15 *)
Definition __init__ : M t unit :=
  b ← _is_in_cluster;
  setattr class "in_cluster" (set_in_cluster b);;
  _initialize_client.

Definition not_running : gmap string value :=
  dict_of [("error", VStr "Not running in Kubernetes")].

Definition strftime_format : string := "%Y-%m-%d %H:%M:%S".

(** line 40 *)
Definition get_pod_info : M t (gmap string value) :=
  flag ← getattr class "running_in_k8s" running_in_k8s;
  if negb flag then mret not_running
  else
    try_except
      (namespace ← os_environ_get "POD_NAMESPACE" "default";
       pod_name ← os_environ_get "POD_NAME" "unknown";
       if bool_decide (pod_name ≠ "unknown") then
         api ← getattr class "core_api" core_api;
         pod ← call (ReadNamespacedPod pod_name namespace)
                    (fun o => read_namespaced_pod o pod_name namespace);
         v_name ← attr_of (metadata pod) "name" meta_name;
         v_namespace ← attr_of (metadata pod) "namespace" meta_namespace;
         v_node ← attr_of (spec pod) "node_name" node_name;
         v_ip ← attr_of (status pod) "pod_ip" pod_ip;
         ts ← attr_of (metadata pod) "creation_timestamp" creation_timestamp;
         v_created ←
           match ts with
           | Some d => s ← ask (fun w => strftime (out w) d strftime_format); mret (VStr s)
           | None => mret VNone
           end;
         mret (dict_of [("pod_name", VOptStr v_name);
                        ("namespace", VOptStr v_namespace);
                        ("node", VOptStr v_node);
                        ("pod_ip", VOptStr v_ip);
                        ("created", v_created)])
       else
         mret (dict_of [("pod_name", VStr pod_name);
                        ("namespace", VStr namespace);
                        ("status", VStr "Limited information available")]))
      (fun e =>
         logger_error logger (Msg ("Error getting pod info: " +:+ exc_msg e));;
         mret (dict_of [("error", VStr (exc_msg e))])).

(** line 69 *)
Definition get_cluster_info : M t (gmap string value) :=
  flag ← getattr class "running_in_k8s" running_in_k8s;
  if negb flag then mret not_running
  else
    try_except
      (version_info ← call VersionGetCode version_get_code;
       mret (dict_of [("kubernetes_version", VStr (git_version version_info));
                      ("platform", VStr (platform version_info));
                      ("go_version", VStr (go_version version_info))]))
      (fun e =>
         logger_error logger (Msg ("Error getting cluster info: " +:+ exc_msg e));;
         mret (dict_of [("error", VStr (exc_msg e))])).

End K8sClient.

(** ** webtest.py *)

(** One double quote, for the text of the page. *)
Definition dq : string := String (ascii_of_nat 34) EmptyString.

Module WebTest.

(** The bound methods that [_setup_routes] registers as callbacks. *)
Inductive callback : Type :=
  | cb_index
  | cb_status
  | cb_info
  | cb_kubernetes_info
  | cb_health_check
  | cb_readiness_check.

(** A [Bottle] application, as far as the code uses it: the routes in the
    order of their registration.  All of them are GET routes. *)
Record Bottle : Type := mkBottle { routes : list (string * callback) }.

(** The attributes of an instance; [None] is an attribute that was never
    assigned. *)
Record t : Type := mk {
  app : option Bottle;
  host : option string;
  port : option Z;
  app_name : option string;
  environment : option string;
  k8s_client : option K8sClient.t
}.

Definition fresh : t := mk None None None None None None.

Definition set_app v (self : t) : t :=
  mk (Some v) (host self) (port self) (app_name self) (environment self) (k8s_client self).
Definition set_host v (self : t) : t :=
  mk (app self) (Some v) (port self) (app_name self) (environment self) (k8s_client self).
Definition set_port v (self : t) : t :=
  mk (app self) (host self) (Some v) (app_name self) (environment self) (k8s_client self).
Definition set_app_name v (self : t) : t :=
  mk (app self) (host self) (port self) (Some v) (environment self) (k8s_client self).
Definition set_environment v (self : t) : t :=
  mk (app self) (host self) (port self) (app_name self) (Some v) (k8s_client self).
Definition set_k8s_client v (self : t) : t :=
  mk (app self) (host self) (port self) (app_name self) (environment self) (Some v).

Definition class : string := "WebTest".
Definition logger : string := "webtest".

(** What a handler returns: the page as a [str], or a [dict] that Bottle
    turns into JSON. *)
Inductive returned : Type :=
  | RetStr (s : string)
  | RetDict (d : gmap string value).

(** [self.app.route(path, callback=cb)] *)
Definition app_route (path : string) (cb : callback) : M t unit :=
  on_attr class "app" app set_app
    (fun a w => (Ok tt, mkBottle (routes a ++ [(path, cb)]), w)).

(** A method of [self.k8s_client]. *)
Definition k8s {A} (m : M K8sClient.t A) : M t A :=
  on_attr class "k8s_client" k8s_client set_k8s_client m.

(** [response.content_type = ct] *)
Definition set_content_type (ct : string) : M t unit :=
  fun s w => (Ok tt, s, with_content_type ct w).

(** line 36 *)
Definition _setup_routes : M t unit :=
  app_route "/" cb_index;;
  app_route "/api/status" cb_status;;
  app_route "/api/info" cb_info;;
  app_route "/api/kubernetes" cb_kubernetes_info;;
  app_route "/healthz" cb_health_check;;
  app_route "/readyz" cb_readiness_check.

(** line 23 *)
Definition __init__ (host_arg : string) (port_arg : Z) : M t unit :=
  setattr class "app" (set_app (mkBottle []));;
  setattr class "host" (set_host host_arg);;
  setattr class "port" (set_port port_arg);;
  v ← get_env_var "APP_NAME" "webtest";
  setattr class "app_name" (set_app_name v);;
  v ← get_env_var "ENVIRONMENT" "development";
  setattr class "environment" (set_environment v);;
  c ← construct K8sClient.fresh K8sClient.__init__;
  setattr class "k8s_client" (set_k8s_client c);;
  _setup_routes.

Definition html_part1 : string :=
  "
        <!DOCTYPE html>
        <html>
        <head>
            <title>".

Definition html_part2 : string :=
  " - Secure Python Container</title>
            <style>
                body {
                    font-family: Arial, sans-serif;
                    max-width: 800px;
                    margin: 0 auto;
                    padding: 20px;
                    line-height: 1.6;
                }
                h1 {
                    color: #2c3e50;
                }
                .endpoints {
                    background-color: #f8f9fa;
                    padding: 15px;
                    border-radius: 5px;
                    margin-top: 20px;
                }
                .endpoint {
                    margin-bottom: 10px;
                }
                .environment {
                    display: inline-block;
                    padding: 4px 8px;
                    border-radius: 4px;
                    background-color: #e4e7eb;
                    font-size: 14px;
                    font-weight: bold;
                }
            </style>
        </head>
        <body>
            <h1>".

Definition html_part3 : string :=
  " - Secure Python Container</h1>
            <p>
                This is a simple web application running in a secure, minimal Python container.
                <span class=" +:+ dq +:+ "environment" +:+ dq +:+ ">".

Definition html_part4 : string :=
  "</span>
            </p>

            <div class=" +:+ dq +:+ "endpoints" +:+ dq +:+ ">
                <h2>Available Endpoints:</h2>
                <div class=" +:+ dq +:+ "endpoint" +:+ dq +:+ ">
                    <strong>GET /</strong> - This page
                </div>
                <div class=" +:+ dq +:+ "endpoint" +:+ dq +:+ ">
                    <strong>GET /api/status</strong> - Server status
                </div>
                <div class=" +:+ dq +:+ "endpoint" +:+ dq +:+ ">
                    <strong>GET /api/info</strong> - Container information
                </div>
                <div class=" +:+ dq +:+ "endpoint" +:+ dq +:+ ">
                    <strong>GET /api/kubernetes</strong> - Kubernetes information (if running in K8s)
                </div>
                <div class=" +:+ dq +:+ "endpoint" +:+ dq +:+ ">
                    <strong>GET /healthz</strong> - Health check endpoint (for Kubernetes liveness probe)
                </div>
                <div class=" +:+ dq +:+ "endpoint" +:+ dq +:+ ">
                    <strong>GET /readyz</strong> - Readiness check endpoint (for Kubernetes readiness probe)
                </div>
            </div>
        </body>
        </html>
        ".

(** The f-string of [index], line 48. *)
Definition index_html (app_name environment : string) : string :=
  html_part1 +:+ app_name +:+ html_part2 +:+ app_name +:+ html_part3 +:+ environment +:+ html_part4.

(** line 45 *)
Definition index : M t returned :=
  set_content_type "text/html";;
  a ← getattr class "app_name" app_name;
  e ← getattr class "environment" environment;
  mret (RetStr (index_html a e)).

(** line 115 *)
Definition status : M t returned :=
  set_content_type "application/json";;
  a ← getattr class "app_name" app_name;
  e ← getattr class "environment" environment;
  mret (RetDict (dict_of [("status", VStr "running");
                          ("service", VStr a);
                          ("environment", VStr e)])).

(** The keys that [info] leaves out, line 138. *)
Definition info_hidden : list string :=
  ["path"; "secret"; "token"; "password"; "key"; "cert"].

(** The dict comprehension of [info], lines 136 to 139:
    [not key.lower() in (...)], with [lo] for [str.lower]. *)
Definition info_env_variables (lo : string -> string) (env : gmap string string)
  : gmap string string :=
  filter (fun kv => lo kv.1 ∉ info_hidden) env.

(** line 124 *)
Definition info : M t returned :=
  bottle_version ← call (Import "bottle") import_bottle;
  set_content_type "application/json";;
  v_python ← ask (fun w => sys_version (out w));
  v_platform ← ask (fun w => platform_platform (out w));
  v_impl ← ask (fun w => python_implementation (out w));
  a ← getattr class "app_name" app_name;
  e ← getattr class "environment" environment;
  do_event EnvItems;;
  env ← ask environ;
  lo ← ask (fun w => lower (out w));
  mret (RetDict (dict_of [("python_version", VStr v_python);
                          ("platform", VStr v_platform);
                          ("implementation", VStr v_impl);
                          ("bottle_version", VStr bottle_version);
                          ("app_name", VStr a);
                          ("environment", VStr e);
                          ("env_variables", VDict (VStr <$> info_env_variables lo env))])).

(** line 142 *)
Definition kubernetes_info : M t returned :=
  set_content_type "application/json";;
  flag ← k8s (getattr K8sClient.class "running_in_k8s" K8sClient.running_in_k8s);
  let result := dict_of [("running_in_kubernetes", VBool flag)] in
  flag' ← k8s (getattr K8sClient.class "running_in_k8s" K8sClient.running_in_k8s);
  if flag' : bool then
    pod_info ← k8s K8sClient.get_pod_info;
    cluster_info ← k8s K8sClient.get_cluster_info;
    mret (RetDict (dict_update result
                     (dict_of [("pod_info", VDict pod_info);
                               ("cluster_info", VDict cluster_info)])))
  else
    mret (RetDict result).

(** line 158 *)
Definition health_check : M t returned :=
  set_content_type "application/json";;
  mret (RetDict (dict_of [("status", VStr "healthy")])).

(** line 163 *)
Definition readiness_check : M t returned :=
  set_content_type "application/json";;
  mret (RetDict (dict_of [("status", VStr "ready")])).

(** line 168 *)
Definition run : M t unit :=
  a ← getattr class "app_name" app_name;
  e ← getattr class "environment" environment;
  logger_info logger (Msg ("Starting " +:+ a +:+ " server in " +:+ e +:+ " environment"));;
  h ← getattr class "host" host;
  p ← getattr class "port" port;
  logger_info logger (MsgListening h p);;
  flag ← k8s (getattr K8sClient.class "running_in_k8s" K8sClient.running_in_k8s);
  logger_info logger (MsgRunningInK8s flag);;
  logger_info logger (Msg "Available endpoints:");;
  logger_info logger (Msg "  - GET /");;
  logger_info logger (Msg "  - GET /api/status");;
  logger_info logger (Msg "  - GET /api/info");;
  logger_info logger (Msg "  - GET /api/kubernetes");;
  logger_info logger (Msg "  - GET /healthz");;
  logger_info logger (Msg "  - GET /readyz");;
  _ ← getattr class "app" app;
  h ← getattr class "host" host;
  p ← getattr class "port" port;
  call (BottleRun h p) (fun o => bottle_run o h p).

End WebTest.

(** ** Bottle serving a GET request

    Bottle is a library, not code of the repository.  What follows is the
    part of its request handling the six routes go through: the response
    object starts with the default content type, the router picks the
    callback registered for the path (the last registration wins), a
    returned [dict] is sent as JSON, and an [Exception] out of a callback
    becomes a 500 response. *)
Record http_response : Type := mkResponse {
  status_code : Z;
  content_type : string;
  body : option WebTest.returned
}.

Definition call_callback (cb : WebTest.callback) : M WebTest.t WebTest.returned :=
  match cb with
  | WebTest.cb_index => WebTest.index
  | WebTest.cb_status => WebTest.status
  | WebTest.cb_info => WebTest.info
  | WebTest.cb_kubernetes_info => WebTest.kubernetes_info
  | WebTest.cb_health_check => WebTest.health_check
  | WebTest.cb_readiness_check => WebTest.readiness_check
  end.

Definition default_content_type : string := "text/html; charset=UTF-8".

Definition route_lookup (path : string) (rs : list (string * WebTest.callback))
  : option WebTest.callback :=
  fold_left (fun found r => if String.eqb r.1 path then Some r.2 else found) rs None.

Definition serve_GET (path : string) : M WebTest.t http_response :=
  WebTest.set_content_type default_content_type;;
  a ← getattr WebTest.class "app" WebTest.app;
  match route_lookup path (WebTest.routes a) with
  | None => mret (mkResponse 404 default_content_type None)
  | Some cb =>
      try_except
        (r ← call_callback cb;
         ct ← ask response_content_type;
         match r with
         | WebTest.RetDict _ => mret (mkResponse 200 "application/json" (Some r))
         | WebTest.RetStr _ => mret (mkResponse 200 ct (Some r))
         end)
        (fun _ => mret (mkResponse 500 default_content_type None))
  end.

(** ** main.py *)

(** The builtin [int(x)] on what [get_env_var('PORT', 8080)] returns: an
    [int] is returned as it is, a [str] is parsed. *)
Definition py_int {S} (x : string + Z) : M S Z :=
  match x with
  | inr z => mret z
  | inl s =>
      fun st w =>
        match int_of_str (out w) s with
        | Returns z => (Ok z, st, w)
        | Fails e => (Raise (RException e), st, w)
        end
  end.

Module Main.

Definition logger : string := "__main__".

(** The substrings that hide a variable from the log, line 50. *)
Definition sensitive_words : list string :=
  ["secret"; "password"; "token"; "key"; "cert"].

(** The dict comprehension of [main], lines 47 to 51:
    [not any(sensitive in key.lower() for sensitive in [...])], with [lo]
    for [str.lower]. *)
Definition env_vars (lo : string -> string) (env : gmap string string)
  : gmap string string :=
  filter (fun kv => existsb (fun sensitive => str_in sensitive (lo kv.1))
                      sensitive_words = false) env.

(** line 19; the module has no object of its own, [self] is [unit]. *)
Definition main : M unit unit :=
  logger_info logger
    (Msg "Starting secure Python web application with Kubernetes support...");;
  port_raw ← get_env_var "PORT" (inr 8080%Z);
  port ← py_int port_raw;
  host ← get_env_var "HOST" "0.0.0.0";
  app_name ← get_env_var "APP_NAME" "webtest";
  environment ← get_env_var "ENVIRONMENT" "development";
  try_except_ImportError
    (v ← call (Import "bottle") import_bottle;
     logger_info logger (Msg ("Bottle version: " +:+ v)))
    (fun e =>
       logger_error logger (Msg ("Error importing Bottle: " +:+ exc_msg e));;
       sys_exit 1);;
  try_except_ImportError
    (v ← call (Import "kubernetes") import_kubernetes;
     logger_info logger (Msg ("Kubernetes client version: " +:+ v)))
    (fun e =>
       logger_warning logger (Msg ("Kubernetes client not available: " +:+ exc_msg e)));;
  do_event EnvItems;;
  env ← ask environ;
  lo ← ask (fun w => lower (out w));
  logger_info logger (MsgEnvVars (env_vars lo env));;
  try_except
    (logger_info logger (MsgStartingOn app_name environment host port);;
     web_app ← construct WebTest.fresh (WebTest.__init__ host port);
     _ ← invoke web_app WebTest.run;
     mret tt)
    (fun e =>
       logger_error logger (Msg ("Error starting web application: " +:+ exc_msg e));;
       sys_exit 1).

End Main.

(** ** Concrete worlds

    Two processes to run the code on: one on a developer's machine without
    any cluster, one inside a pod. *)

(** The builtin [int()] on ASCII text: optional white space around, an
    optional sign, then decimal digits that single underscores may
    separate. *)
Definition is_space (c : ascii) : bool :=
  let n := nat_of_ascii c in
  (n =? 32)%nat || ((9 <=? n)%nat && (n <=? 13)%nat).

Definition digit_of (c : ascii) : option Z :=
  let n := nat_of_ascii c in
  if (48 <=? n)%nat && (n <=? 57)%nat then Some (Z.of_nat (n - 48)) else None.

Fixpoint lstrip (l : list ascii) : list ascii :=
  match l with
  | c :: r => if is_space c then lstrip r else l
  | [] => []
  end.

Fixpoint digits (l : list ascii) (acc : Z) (after_digit : bool) : option Z :=
  match l with
  | [] => if after_digit then Some acc else None
  | c :: r =>
      match digit_of c with
      | Some d => digits r (10 * acc + d)%Z true
      | None =>
          if Ascii.eqb c "_"%char && after_digit then digits r acc false else None
      end
  end.

Definition ascii_int (s : string) : answer Z :=
  let l := rev (lstrip (rev (lstrip (list_ascii_of_string s)))) in
  let parsed :=
    match l with
    | "-"%char :: r => Z.opp <$> digits r 0 false
    | "+"%char :: r => digits r 0 false
    | _ => digits l 0 false
    end in
  match parsed with
  | Some z => Returns z
  | None =>
      Fails (mkException ValueError
               ("invalid literal for int() with base 10: '" +:+ s +:+ "'"))
  end.

Definition config_exception (msg : string) : exception :=
  mkException (OtherException "ConfigException") msg.

Definition api_exception (msg : string) : exception :=
  mkException (OtherException "ApiException") msg.

(** No token file, no kubeconfig, no cluster to reach. *)
Definition laptop : outside := {|
  path_exists := fun _ => false;
  load_incluster_config := Fails (config_exception "Service host/port is not set.");
  load_kube_config := Fails (config_exception "Invalid kube-config file. No configuration found.");
  new_CoreV1Api := Returns CoreV1Api_handle;
  read_namespaced_pod := fun _ _ => Fails (api_exception "Connection refused");
  version_get_code := Fails (api_exception "Connection refused");
  import_bottle := Returns "0.12.25";
  import_kubernetes := Returns "28.1.0";
  sys_version := "3.11.6 (main)";
  platform_platform := "Linux-6.1-x86_64";
  python_implementation := "CPython";
  int_of_str := ascii_int;
  lower := str_lower;
  strftime := fun _ _ => "2024-01-01 00:00:00";
  bottle_run := fun _ _ => Returns tt
|}.

Definition web_pod : V1Pod := {|
  metadata := Some (mkMeta (Some "web-0") (Some "prod") (Some (mkDatetime 2024 1 1 0 0 0)));
  spec := Some (mkSpec (Some "node-a"));
  status := Some (mkStatus (Some "10.0.0.7"))
|}.

(** The token file is mounted and the API server answers. *)
Definition pod : outside := {|
  path_exists := fun p => String.eqb p K8sClient.token_path;
  load_incluster_config := Returns tt;
  load_kube_config := Fails (config_exception "Invalid kube-config file. No configuration found.");
  new_CoreV1Api := Returns CoreV1Api_handle;
  read_namespaced_pod := fun name ns =>
    if String.eqb name "web-0" && String.eqb ns "prod" then Returns web_pod
    else Fails (api_exception "(404) Reason: Not Found");
  version_get_code := Returns (mkVersionInfo "v1.29.0" "linux/amd64" "go1.21.5");
  import_bottle := Returns "0.12.25";
  import_kubernetes := Returns "28.1.0";
  sys_version := "3.11.6 (main)";
  platform_platform := "Linux-6.1-x86_64";
  python_implementation := "CPython";
  int_of_str := ascii_int;
  lower := str_lower;
  strftime := fun _ _ => "2024-01-01 00:00:00";
  bottle_run := fun _ _ => Returns tt
|}.

(** A process that has done nothing yet. *)
Definition boot (env : list (string * string)) (o : outside) : world :=
  mkWorld (list_to_map env) o [] default_content_type.

Definition laptop_world : world := boot [("HOME", "/root"); ("PATH", "/usr/bin")] laptop.

Definition pod_world : world :=
  boot [("POD_NAME", "web-0"); ("POD_NAMESPACE", "prod"); ("APP_NAME", "shop");
        ("ENVIRONMENT", "production"); ("PATH", "/usr/bin"); ("MY_SECRET_X", "1")] pod.

(** The clients and the [WebTest] objects these two processes build. *)
Definition disabled_client : K8sClient.t :=
  K8sClient.mk (Some false) None (Some false).

Definition enabled_client : K8sClient.t :=
  K8sClient.mk (Some true) (Some CoreV1Api_handle) (Some true).

(** ** Reading a run *)

(** The two states of the cluster client (spec, section 4.2). *)
Definition Disabled (c : K8sClient.t) : Prop :=
  K8sClient.running_in_k8s c = Some false.

Definition Enabled (c : K8sClient.t) : Prop :=
  K8sClient.running_in_k8s c = Some true /\ is_Some (K8sClient.core_api c).

(** The credential loader that [_initialize_client] picks. *)
Definition load_config (o : outside) : answer unit :=
  if path_exists o K8sClient.token_path
  then load_incluster_config o
  else load_kube_config o.

(** [self.attr = ...] for one attribute of one class. *)
Definition assigns (class attr : string) (e : event) : bool :=
  match e with
  | SetAttr c a => String.eqb c class && String.eqb a attr
  | _ => false
  end.

(** A request that goes to the cluster's API server. *)
Definition cluster_request (e : event) : bool :=
  match e with
  | ReadNamespacedPod _ _ | VersionGetCode => true
  | _ => false
  end.

(** A read of one variable of the environment. *)
Definition reads_env (name : string) (e : event) : bool :=
  match e with
  | EnvGet n => String.eqb n name
  | _ => false
  end.

Definition count (p : event -> bool) (evs : list event) : nat :=
  length (List.filter p evs).

(** The environment snapshots that were logged, in order. *)
Definition logged_env_vars (evs : list event) : list (gmap string string) :=
  omap (fun e => match e with
                 | Log _ _ (MsgEnvVars m) => Some m
                 | _ => None
                 end) evs.

(** [w'] is [w] after the events [evs]: nothing but the trace and the
    content type of the response differs. *)
Definition after (w : world) (evs : list event) (w' : world) : Prop :=
  environ w' = environ w /\ out w' = out w /\ trace w' = (trace w ++ evs)%list.

(** [K8sClient()] and [WebTest(host, port)] called from the top level. *)
Definition new_K8sClient (w : world) : result K8sClient.t * world :=
  match construct K8sClient.fresh K8sClient.__init__ tt w with
  | (r, _, w') => (r, w')
  end.

Definition new_WebTest (host : string) (port : Z) (w : world) : result WebTest.t * world :=
  match construct WebTest.fresh (WebTest.__init__ host port) tt w with
  | (r, _, w') => (r, w')
  end.

(** The routes after [_setup_routes]. *)
Definition route_table : list (string * WebTest.callback) :=
  [("/", WebTest.cb_index);
   ("/api/status", WebTest.cb_status);
   ("/api/info", WebTest.cb_info);
   ("/api/kubernetes", WebTest.cb_kubernetes_info);
   ("/healthz", WebTest.cb_health_check);
   ("/readyz", WebTest.cb_readiness_check)].

(** [self] is an object that [WebTest(host, port)] returned, in some
    process: the objects a running server answers requests with. *)
Definition serving (self : WebTest.t) : Prop :=
  exists host port w0, (new_WebTest host port w0).1 = Ok self.

(** Two strings are equal up to the case of their letters: they have the
    same lower-case form, [lo] being [str.lower]. *)
Definition ci_equal (lo : string -> string) (a b : string) : Prop := lo a = lo b.

(** [KEY] written with U+212A KELVIN SIGN for its first letter: the bytes
    E2 84 AA, then [EY].  Python's [str.lower] turns it into [key]. *)
Definition kelvin_KEY : string :=
  String (ascii_of_nat 226) (String (ascii_of_nat 132) (String (ascii_of_nat 170) "EY")).


(** [needle] occurs in [hay]: the meaning of [str_in]. *)
Definition occurs_in (needle hay : string) : Prop :=
  exists before rest, hay = before +:+ needle +:+ rest.

Definition laptop_app : WebTest.t :=
  WebTest.mk (Some (WebTest.mkBottle route_table)) (Some "0.0.0.0") (Some 8080%Z)
    (Some "webtest") (Some "development") (Some disabled_client).

Definition pod_app : WebTest.t :=
  WebTest.mk (Some (WebTest.mkBottle route_table)) (Some "0.0.0.0") (Some 8080%Z)
    (Some "shop") (Some "production") (Some enabled_client).

(** Kinds of events, to count them in a trace. *)
Definition checks_token (e : event) : bool :=
  match e with
  | PathExists p => String.eqb p K8sClient.token_path
  | _ => false
  end.

Definition loads_incluster (e : event) : bool :=
  match e with LoadInclusterConfig => true | _ => false end.

Definition loads_kubeconfig (e : event) : bool :=
  match e with LoadKubeConfig => true | _ => false end.

Definition creates_api (e : event) : bool :=
  match e with NewCoreV1Api => true | _ => false end.

Definition starts_server (e : event) : bool :=
  match e with BottleRun _ _ => true | _ => false end.

(** Where in a trace the first event of a kind is. *)
Fixpoint position (p : event -> bool) (evs : list event) : option nat :=
  match evs with
  | [] => None
  | e :: rest => if p e then Some 0 else S <$> position p rest
  end.

Definition level_eqb (a b : level) : bool :=
  match a, b with
  | INFO, INFO | WARNING, WARNING | ERROR, ERROR => true
  | _, _ => false
  end.

(** The messages logged at one level, in order. *)
Definition logged (lvl : level) (evs : list event) : list log_msg :=
  omap (fun e => match e with
                 | Log _ l m => if level_eqb l lvl then Some m else None
                 | _ => None
                 end) evs.

(** The line of [run]'s log and the entry of the page for one route. *)
Definition endpoint_log_line (r : string * WebTest.callback) : event :=
  Log "webtest" INFO (Msg ("  - GET " +:+ r.1)).

Definition endpoint_entry (path : string) : string :=
  "<strong>GET " +:+ path +:+ "</strong>".

(** * Properties *)

(** ** The definitions at work *)

Example dict_of_order :
  dict_of [("a", VBool true); ("b", VNone)] = dict_of [("b", VNone); ("a", VBool true)] /\
  dict_of [("a", VNone); ("a", VBool true)] !! "a" = Some (VBool true).
Proof. split; vm_compute; reflexivity. Qed.

Example str_lower_demo : str_lower "My_Secret-9" = "my_secret-9".
Proof. reflexivity. Qed.

Example str_in_demo :
  str_in "secret" "my_secret_x" = true /\ str_in "key" "monkey" = true /\
  str_in "cert" "concern" = false /\ str_in "" "" = true.
Proof. repeat split. Qed.

Example ascii_int_demo :
  ascii_int " 80_80 " = Returns 8080%Z /\ ascii_int "-7" = Returns (-7)%Z /\
  (exists e, ascii_int "http" = Fails e) /\ (exists e, ascii_int "8__0" = Fails e) /\
  (exists e, ascii_int "" = Fails e).
Proof. repeat split; eexists; reflexivity. Qed.

(** The constructor on the laptop: no token file, the kubeconfig does not
    load, the client ends up disabled. *)
Example K8sClient_on_laptop :
  (new_K8sClient laptop_world).1 = Ok disabled_client /\
  trace (new_K8sClient laptop_world).2 =
    [PathExists K8sClient.token_path;
     SetAttr "K8sClient" "in_cluster";
     Log "k8s_utils" INFO (Msg "Not running in Kubernetes cluster, using local kubeconfig");
     LoadKubeConfig;
     Log "k8s_utils" WARNING
       (Msg "Failed to initialize Kubernetes client: Invalid kube-config file. No configuration found.");
     SetAttr "K8sClient" "running_in_k8s"].
Proof. split; reflexivity. Qed.

Example K8sClient_in_pod : (new_K8sClient pod_world).1 = Ok enabled_client.
Proof. reflexivity. Qed.

Example WebTest_on_laptop : (new_WebTest "0.0.0.0" 8080 laptop_world).1 = Ok laptop_app.
Proof. reflexivity. Qed.

Example WebTest_in_pod : (new_WebTest "0.0.0.0" 8080 pod_world).1 = Ok pod_app.
Proof. reflexivity. Qed.

Example pod_info_in_pod :
  (K8sClient.get_pod_info enabled_client pod_world).1.1 =
    Ok (dict_of [("pod_name", VStr "web-0"); ("namespace", VStr "prod");
                 ("node", VStr "node-a"); ("pod_ip", VStr "10.0.0.7");
                 ("created", VStr "2024-01-01 00:00:00")]).
Proof. vm_compute. reflexivity. Qed.

Example unknown_route : (serve_GET "/nope" pod_app pod_world).1.1 =
  Ok (mkResponse 404 default_content_type None).
Proof. reflexivity. Qed.

(** ** Running the code by hand *)

(** Unfold the program down to the answers of the outside. *)
Ltac unfold_program :=
  cbv [mbind mret M_bind M_ret bind ret raise try_except try_except_ImportError
       do_event ask call query getattr setattr on_attr construct invoke attr_of
       sys_exit logger_info logger_warning logger_error py_int
       os_environ_get get_env_var of_str StrOr_str StrOr_int
       new_K8sClient new_WebTest
       K8sClient._is_in_cluster K8sClient._initialize_client K8sClient.__init__
       K8sClient.get_pod_info K8sClient.get_cluster_info
       WebTest.app_route WebTest.k8s WebTest.set_content_type
       WebTest._setup_routes WebTest.__init__ WebTest.index WebTest.status
       WebTest.info WebTest.kubernetes_info WebTest.health_check
       WebTest.readiness_check WebTest.run].

(** Case analysis on the innermost thing a [match] of the goal waits
    for: an answer of the outside, an attribute, a variable of the
    environment. *)
Ltac destruct_scrutinee x :=
  lazymatch x with
  | context [match ?y with _ => _ end] => destruct_scrutinee y
  | _ => destruct x eqn:?
  end.

Ltac destruct_match :=
  match goal with
  | |- context [match ?x with _ => _ end] => destruct_scrutinee x
  end.

Ltac exec := unfold_program; cbn; repeat (destruct_match; cbn).

(** Bring a trace into the form [trace w ++ [e1; ...; en]]. *)
Ltac trace_norm :=
  cbn [trace emit with_content_type environ out response_content_type];
  repeat rewrite <- app_assoc; cbn [app].

Ltac after_done :=
  unfold after; trace_norm;
  repeat split; first [reflexivity | symmetry; apply app_nil_r].

(** Close [exists r w' evs, run = (r, self, w') /\ after w evs w' /\ ...]
    up to the part after [after]. *)
Ltac ran :=
  do 3 eexists; (split; [reflexivity |]); (split; [after_done |]); cbn.

Lemma after_refl (w : world) : after w [] w.
Proof. after_done. Qed.

Lemma after_trans (w1 w2 w3 : world) (evs1 evs2 : list event) :
  after w1 evs1 w2 -> after w2 evs2 w3 -> after w1 (evs1 ++ evs2) w3.
Proof.
  intros (E1 & O1 & T1) (E2 & O2 & T2). unfold after.
  rewrite E2, O2, T2, E1, O1, T1, app_assoc. auto.
Qed.

Lemma count_app (p : event -> bool) (evs1 evs2 : list event) :
  count p (evs1 ++ evs2) = count p evs1 + count p evs2.
Proof. unfold count. rewrite List.filter_app, length_app. reflexivity. Qed.

(** ** The cluster client *)

(** What [K8sClient()] does, whoever calls it: it returns an object, the
    flag is [True] exactly when the credentials loaded and the API client
    was created, and the only thing it asks the outside is the token file,
    the credentials and the API client. *)
Lemma construct_K8sClient {S : Type} (s : S) (w : world) :
  exists c w' evs,
    construct K8sClient.fresh K8sClient.__init__ s w = (Ok c, s, w') /\
    after w evs w' /\
    response_content_type w' = response_content_type w /\
    count (assigns "K8sClient" "running_in_k8s") evs = 1 /\
    count cluster_request evs = 0 /\
    (forall name, count (reads_env name) evs = 0) /\
    K8sClient.in_cluster c = Some (path_exists (out w) K8sClient.token_path) /\
    match load_config (out w), new_CoreV1Api (out w) with
    | Returns _, Returns h =>
        K8sClient.running_in_k8s c = Some true /\ K8sClient.core_api c = Some h
    | _, _ =>
        K8sClient.running_in_k8s c = Some false /\ K8sClient.core_api c = None
    end.
Proof.
  unfold load_config. unfold_program. cbn.
  destruct (path_exists (out w) K8sClient.token_path); cbn;
    [destruct (load_incluster_config (out w)) | destruct (load_kube_config (out w))];
    cbn; try destruct (new_CoreV1Api (out w)); cbn;
    do 3 eexists; (split; [reflexivity |]); (split; [after_done |]);
    cbn; auto 10.
Qed.

(** [WebTest(host, port)] returns an object, whatever the outside answers.
    Its name and environment are those of the environment at that moment,
    read once each, and its client is in one of its two states. *)
Lemma new_WebTest_spec (host : string) (port : Z) (w : world) :
  exists c w' evs,
    new_WebTest host port w =
      (Ok (WebTest.mk (Some (WebTest.mkBottle route_table)) (Some host) (Some port)
             (Some (default "webtest" (environ w !! "APP_NAME")))
             (Some (default "development" (environ w !! "ENVIRONMENT")))
             (Some c)), w') /\
    after w evs w' /\
    count (reads_env "APP_NAME") evs = 1 /\
    count (reads_env "ENVIRONMENT") evs = 1 /\
    count cluster_request evs = 0 /\
    (Disabled c \/ Enabled c).
Proof.
  unfold Disabled, Enabled. unfold_program. cbn.
  destruct (path_exists (out w) K8sClient.token_path); cbn;
    [destruct (load_incluster_config (out w)) | destruct (load_kube_config (out w))];
    cbn; try destruct (new_CoreV1Api (out w)); cbn;
    do 3 eexists; (split; [reflexivity |]); (split; [after_done |]);
    cbn; eauto 10.
Qed.

Lemma serving_inv (self : WebTest.t) :
  serving self ->
  exists host port a e c,
    self = WebTest.mk (Some (WebTest.mkBottle route_table)) (Some host) (Some port)
             (Some a) (Some e) (Some c) /\
    (Disabled c \/ Enabled c).
Proof.
  intros (host & port & w0 & H).
  destruct (new_WebTest_spec host port w0) as (c & w' & evs & E & _ & _ & _ & _ & D).
  rewrite E in H. injection H as <-. eauto 10.
Qed.

(** The two queries leave the client as it was, assign nothing, and return
    a dict (they do not raise) once the flag exists. *)
Lemma get_pod_info_keeps_self (c : K8sClient.t) (w : world) :
  exists r w' evs,
    K8sClient.get_pod_info c w = (r, c, w') /\ after w evs w' /\
    response_content_type w' = response_content_type w /\
    (forall class attr, count (assigns class attr) evs = 0) /\
    (K8sClient.running_in_k8s c <> None -> exists d, r = Ok d).
Proof.
  exec; ran; repeat split; auto; try congruence; eauto.
Qed.

Lemma get_cluster_info_keeps_self (c : K8sClient.t) (w : world) :
  exists r w' evs,
    K8sClient.get_cluster_info c w = (r, c, w') /\ after w evs w' /\
    response_content_type w' = response_content_type w /\
    (forall class attr, count (assigns class attr) evs = 0) /\
    (K8sClient.running_in_k8s c <> None -> exists d, r = Ok d).
Proof.
  exec; ran; repeat split; auto; try congruence; eauto.
Qed.

(** ** The handlers *)

(** No handler changes the [WebTest] object or the client in it, and none
    assigns an attribute. *)
Lemma callback_keeps_self (cb : WebTest.callback) (self : WebTest.t) (w : world) :
  exists r w' evs,
    call_callback cb self w = (r, self, w') /\ after w evs w' /\
    (forall class attr, count (assigns class attr) evs = 0).
Proof.
  destruct self as [a h p n e [c|]], cb; unfold call_callback;
    exec; ran; auto.
Qed.

Lemma serve_GET_keeps_self (path : string) (self : WebTest.t) (w : world) :
  exists r w' evs,
    serve_GET path self w = (r, self, w') /\ after w evs w' /\
    (forall class attr, count (assigns class attr) evs = 0).
Proof.
  unfold serve_GET. unfold_program. cbn.
  destruct (WebTest.app self) as [a|]; cbn; [| ran; auto].
  destruct (route_lookup path (WebTest.routes a)) as [cb|]; cbn; [| ran; auto].
  destruct (callback_keeps_self cb self (with_content_type default_content_type w))
    as (r & w' & evs & -> & A & N).
  destruct r as [[|] | [|]]; cbn;
    do 3 eexists; (split; [reflexivity |]); (split; [exact A | exact N]).
Qed.

(** Like [unfold_program], with the two queries of the client left as
    calls. *)
Ltac unfold_handlers :=
  cbv [mbind mret M_bind M_ret bind ret raise try_except
       do_event ask call getattr on_attr
       WebTest.k8s WebTest.set_content_type WebTest.index WebTest.status
       WebTest.info WebTest.kubernetes_info WebTest.health_check
       WebTest.readiness_check call_callback serve_GET].

(** ** The claims *)

(** C1.  [/healthz] answers [{status: "healthy"}] and [/readyz] answers
    [{status: "ready"}], as JSON and with status 200.  The two handlers do
    so on every object and in every world, they read neither; a request
    served by an object the constructor returned gets that answer whatever
    state the client in it is in, and nothing is asked of the outside (the
    world after differs in the content type only). *)
Theorem probes_always_succeed :
  (forall (self : WebTest.t) (w : world),
     WebTest.health_check self w =
       (Ok (WebTest.RetDict (dict_of [("status", VStr "healthy")])), self,
        with_content_type "application/json" w) /\
     WebTest.readiness_check self w =
       (Ok (WebTest.RetDict (dict_of [("status", VStr "ready")])), self,
        with_content_type "application/json" w)) /\
  (forall (self : WebTest.t) (w : world),
     serving self ->
     serve_GET "/healthz" self w =
       (Ok (mkResponse 200 "application/json"
              (Some (WebTest.RetDict (dict_of [("status", VStr "healthy")])))),
        self, with_content_type "application/json" w) /\
     serve_GET "/readyz" self w =
       (Ok (mkResponse 200 "application/json"
              (Some (WebTest.RetDict (dict_of [("status", VStr "ready")])))),
        self, with_content_type "application/json" w)).
Proof.
  split.
  - intros self w. split; reflexivity.
  - intros self w Hs.
    destruct (serving_inv self Hs) as (h & p & a & e & c & -> & _).
    split; reflexivity.
Qed.

(** C1 at work: the laptop's client is disabled, its probes answer. *)
Lemma probes_always_succeed_witness :
  (K8sClient.running_in_k8s <$> WebTest.k8s_client laptop_app = Some (Some false)) /\
  serve_GET "/healthz" laptop_app laptop_world =
    (Ok (mkResponse 200 "application/json"
           (Some (WebTest.RetDict (dict_of [("status", VStr "healthy")])))),
     laptop_app, with_content_type "application/json" laptop_world) /\
  serve_GET "/readyz" laptop_app laptop_world =
    (Ok (mkResponse 200 "application/json"
           (Some (WebTest.RetDict (dict_of [("status", VStr "ready")])))),
     laptop_app, with_content_type "application/json" laptop_world).
Proof.
  split; [reflexivity |].
  apply (proj2 probes_always_succeed laptop_app laptop_world).
  exists "0.0.0.0", 8080%Z, laptop_world. reflexivity.
Defined.

(** C2.  [K8sClient()] returns an object in every world, it never raises.
    The flag is [True] when the credentials loaded and the API client was
    created, and [False] after any failure of either.  The construction
    assigns the flag once.  Neither query and no served request assigns it
    or changes the object that carries it. *)
Theorem K8sClient_never_raises_flag_set_once :
  (forall w : world,
     exists c w' evs,
       new_K8sClient w = (Ok c, w') /\ after w evs w' /\
       count (assigns "K8sClient" "running_in_k8s") evs = 1 /\
       K8sClient.running_in_k8s c =
         Some match load_config (out w), new_CoreV1Api (out w) with
              | Returns _, Returns _ => true
              | _, _ => false
              end) /\
  (forall (c : K8sClient.t) (w : world),
     exists r w' evs,
       K8sClient.get_pod_info c w = (r, c, w') /\ after w evs w' /\
       count (assigns "K8sClient" "running_in_k8s") evs = 0) /\
  (forall (c : K8sClient.t) (w : world),
     exists r w' evs,
       K8sClient.get_cluster_info c w = (r, c, w') /\ after w evs w' /\
       count (assigns "K8sClient" "running_in_k8s") evs = 0) /\
  (forall (path : string) (self : WebTest.t) (w : world),
     exists r w' evs,
       serve_GET path self w = (r, self, w') /\ after w evs w' /\
       count (assigns "K8sClient" "running_in_k8s") evs = 0).
Proof.
  repeat split.
  - intros w. unfold new_K8sClient.
    destruct (construct_K8sClient tt w) as (c & w' & evs & -> & A & _ & N & _ & _ & _ & F).
    exists c, w', evs. repeat split; try apply A; auto.
    destruct (load_config (out w)), (new_CoreV1Api (out w)); apply F.
  - intros c w.
    destruct (get_pod_info_keeps_self c w) as (r & w' & evs & E & A & _ & N & _).
    exists r, w', evs. auto.
  - intros c w.
    destruct (get_cluster_info_keeps_self c w) as (r & w' & evs & E & A & _ & N & _).
    exists r, w', evs. auto.
  - intros path self w.
    destruct (serve_GET_keeps_self path self w) as (r & w' & evs & E & A & N).
    exists r, w', evs. auto.
Qed.

(** C4.  On a disabled client [get_cluster_info] returns the error payload
    at once: the world after is the world before, so nothing at all was
    asked of the outside.  On a client whose flag is [True] it asks the
    cluster once, for the version, and returns a dict in both cases: the
    three version fields, or [{error: str(e)}] when the query raised. *)
Theorem get_cluster_info_disabled_or_one_query :
  forall (c : K8sClient.t) (w : world),
    (Disabled c ->
     K8sClient.get_cluster_info c w =
       (Ok (dict_of [("error", VStr "Not running in Kubernetes")]), c, w)) /\
    (K8sClient.running_in_k8s c = Some true ->
     exists d w' evs,
       K8sClient.get_cluster_info c w = (Ok d, c, w') /\ after w evs w' /\
       count cluster_request evs = 1 /\
       head evs = Some VersionGetCode /\
       d = match version_get_code (out w) with
           | Returns v =>
               dict_of [("kubernetes_version", VStr (git_version v));
                        ("platform", VStr (platform v));
                        ("go_version", VStr (go_version v))]
           | Fails e => dict_of [("error", VStr (exc_msg e))]
           end).
Proof.
  intros c w. split; intros H; unfold_program; cbn; rewrite H; cbn.
  - reflexivity.
  - destruct (version_get_code (out w)); cbn; ran; auto.
Qed.

Lemma get_cluster_info_disabled_or_one_query_witness :
  K8sClient.get_cluster_info disabled_client pod_world =
    (Ok (dict_of [("error", VStr "Not running in Kubernetes")]),
     disabled_client, pod_world) /\
  exists d w' evs,
    K8sClient.get_cluster_info enabled_client laptop_world =
      (Ok d, enabled_client, w') /\
    after laptop_world evs w' /\
    count cluster_request evs = 1 /\
    head evs = Some VersionGetCode /\
    d = dict_of [("error", VStr "Connection refused")].
Proof.
  split.
  - apply (proj1 (get_cluster_info_disabled_or_one_query disabled_client pod_world)).
    reflexivity.
  - apply (proj2 (get_cluster_info_disabled_or_one_query enabled_client laptop_world)).
    reflexivity.
Defined.

(** C5.  On a client whose flag is [True]: when [POD_NAME] is unset or is
    ["unknown"], [get_pod_info] returns exactly the three keys [pod_name]
    (["unknown"]), [namespace] ([POD_NAMESPACE], or ["default"]) and
    [status], and sends nothing to the cluster.  For any other [POD_NAME],
    and with the API client in place, it sends one request: the lookup of
    that name in that namespace. *)
Theorem get_pod_info_limited_or_one_lookup :
  forall (c : K8sClient.t) (w : world),
    K8sClient.running_in_k8s c = Some true ->
    let namespace := default "default" (environ w !! "POD_NAMESPACE") in
    (environ w !! "POD_NAME" = None \/ environ w !! "POD_NAME" = Some "unknown" ->
     exists w' evs,
       K8sClient.get_pod_info c w =
         (Ok (dict_of [("pod_name", VStr "unknown");
                       ("namespace", VStr namespace);
                       ("status", VStr "Limited information available")]), c, w') /\
       after w evs w' /\ count cluster_request evs = 0) /\
    (forall name : string,
       environ w !! "POD_NAME" = Some name -> name <> "unknown" ->
       is_Some (K8sClient.core_api c) ->
       exists d w' evs,
         K8sClient.get_pod_info c w = (Ok d, c, w') /\ after w evs w' /\
         count cluster_request evs = 1 /\
         In (ReadNamespacedPod name namespace) evs).
Proof.
  intros c w Hflag namespace. subst namespace. split.
  - intros Hname. unfold_program. cbn. rewrite Hflag. cbn.
    destruct Hname as [-> | ->]; cbn;
      (rewrite bool_decide_eq_false_2 by (intros N; apply N; reflexivity));
      do 2 eexists; (split; [reflexivity |]); (split; [after_done |]); reflexivity.
  - intros name Hname Hne [api Hapi]. unfold_program. cbn.
    rewrite Hflag. cbn. rewrite Hname. cbn.
    rewrite bool_decide_eq_true_2 by exact Hne. cbn.
    rewrite Hapi. cbn.
    repeat (destruct_match; cbn); ran; auto 10.
Qed.

Lemma get_pod_info_limited_or_one_lookup_witness :
  (exists w' evs,
     K8sClient.get_pod_info enabled_client laptop_world =
       (Ok (dict_of [("pod_name", VStr "unknown");
                     ("namespace", VStr "default");
                     ("status", VStr "Limited information available")]),
        enabled_client, w') /\
     after laptop_world evs w' /\ count cluster_request evs = 0) /\
  (exists d w' evs,
     K8sClient.get_pod_info enabled_client pod_world = (Ok d, enabled_client, w') /\
     after pod_world evs w' /\
     count cluster_request evs = 1 /\
     In (ReadNamespacedPod "web-0" "prod") evs).
Proof.
  split.
  - apply (proj1 (get_pod_info_limited_or_one_lookup enabled_client laptop_world eq_refl)).
    left. reflexivity.
  - apply (proj2 (get_pod_info_limited_or_one_lookup enabled_client pod_world eq_refl)
             "web-0"); [reflexivity | discriminate | eexists; reflexivity].
Defined.

(** C3.  A request to [/api/kubernetes], served by an object the
    constructor returned, is answered with status 200 and a JSON dict in
    which [running_in_kubernetes] is the client's flag.  With the flag
    [False] that is the whole dict: no [pod_info], no [cluster_info].  With
    the flag [True] the dict has two more keys, [pod_info] with what
    [get_pod_info] returned and [cluster_info] with what [get_cluster_info]
    returned right after it. *)
Theorem kubernetes_info_follows_flag :
  forall (self : WebTest.t) (w : world),
    serving self ->
    exists c flag d w',
      WebTest.k8s_client self = Some c /\
      K8sClient.running_in_k8s c = Some flag /\
      serve_GET "/api/kubernetes" self w =
        (Ok (mkResponse 200 "application/json" (Some (WebTest.RetDict d))), self, w') /\
      d !! "running_in_kubernetes" = Some (VBool flag) /\
      if flag then
        exists pod_info cluster_info w1,
          K8sClient.get_pod_info c (with_content_type "application/json" w) =
            (Ok pod_info, c, w1) /\
          K8sClient.get_cluster_info c w1 = (Ok cluster_info, c, w') /\
          d = dict_of [("running_in_kubernetes", VBool true);
                       ("pod_info", VDict pod_info);
                       ("cluster_info", VDict cluster_info)] /\
          d !! "pod_info" = Some (VDict pod_info) /\
          d !! "cluster_info" = Some (VDict cluster_info)
      else
        d = dict_of [("running_in_kubernetes", VBool false)] /\
        d !! "pod_info" = None /\ d !! "cluster_info" = None.
Proof.
  intros self w Hs.
  destruct (serving_inv self Hs) as (h & p & a & e & c & -> & [D | [D _]]);
    try red in D.
  - exists c, false. unfold_handlers. cbn. repeat (rewrite D; cbn).
    do 2 eexists. repeat split.
  - exists c, true. unfold_handlers. cbn. repeat (rewrite D; cbn).
    change (with_content_type "application/json"
              (with_content_type default_content_type w))
      with (with_content_type "application/json" w).
    destruct (get_pod_info_keeps_self c (with_content_type "application/json" w))
      as (r1 & w1 & evs1 & E1 & _ & _ & _ & [d1 ->]); [congruence |].
    rewrite E1. cbn.
    destruct (get_cluster_info_keeps_self c w1)
      as (r2 & w2 & evs2 & E2 & _ & _ & _ & [d2 ->]); [congruence |].
    rewrite E2. cbn.
    do 2 eexists. repeat split.
    exists d1, d2, w1. repeat split. exact E2.
Qed.

Lemma kubernetes_info_follows_flag_witness :
  exists c flag d w',
    WebTest.k8s_client laptop_app = Some c /\
    K8sClient.running_in_k8s c = Some flag /\
    serve_GET "/api/kubernetes" laptop_app pod_world =
      (Ok (mkResponse 200 "application/json" (Some (WebTest.RetDict d))),
       laptop_app, w') /\
    d !! "running_in_kubernetes" = Some (VBool flag) /\
    if flag then
      exists pod_info cluster_info w1,
        K8sClient.get_pod_info c (with_content_type "application/json" pod_world) =
          (Ok pod_info, c, w1) /\
        K8sClient.get_cluster_info c w1 = (Ok cluster_info, c, w') /\
        d = dict_of [("running_in_kubernetes", VBool true);
                     ("pod_info", VDict pod_info);
                     ("cluster_info", VDict cluster_info)] /\
        d !! "pod_info" = Some (VDict pod_info) /\
        d !! "cluster_info" = Some (VDict cluster_info)
    else
      d = dict_of [("running_in_kubernetes", VBool false)] /\
      d !! "pod_info" = None /\ d !! "cluster_info" = None.
Proof.
  apply (kubernetes_info_follows_flag laptop_app pod_world).
  exists "0.0.0.0", 8080%Z, laptop_world. reflexivity.
Defined.

(** ** The two filters on the environment *)








Lemma prefix_occurs (s t : string) :
  String.prefix s t = true <-> exists rest, t = s +:+ rest.
Proof.
  revert t. induction s as [| c s IH]; intros t.
  - split; [intros _; exists t; reflexivity | intros _; destruct t; reflexivity].
  - destruct t as [| c' t]; cbn; [split; [discriminate | intros [r [=]]] |].
    destruct (Ascii.ascii_dec c c') as [-> | Hc].
    + rewrite IH. split; intros [r E]; exists r; [rewrite E; reflexivity |].
      injection E as E. exact E.
    + split; [discriminate | intros [r E]; injection E; congruence].
Qed.

(** [str_in] decides [occurs_in]. *)
Lemma str_in_occurs (s t : string) : str_in s t = true <-> occurs_in s t.
Proof.
  unfold occurs_in. induction t as [| c t IH]; cbn [str_in].
  - rewrite orb_false_r, prefix_occurs. split.
    + intros [r E]. exists "", r. exact E.
    + intros (b & r & E). destruct b; [exists r; exact E | discriminate].
  - rewrite orb_true_iff, prefix_occurs, IH. split.
    + intros [[r E] | (b & r & E)].
      * exists "", r. exact E.
      * exists (String c b), r. cbn. rewrite E. reflexivity.
    + intros (b & r & E). destruct b as [| c' b]; cbn in E.
      * left. exists r. exact E.
      * right. injection E as _ E. exists b, r. exact E.
Qed.

Lemma env_vars_lookup (lo : string -> string)
    (env : gmap string string) (k x : string) :
  Main.env_vars lo env !! k = Some x <->
  env !! k = Some x /\
  forall s, s ∈ Main.sensitive_words -> ~ occurs_in s (lo k).
Proof.
  unfold Main.env_vars. rewrite map_lookup_filter_Some. cbn [fst].
  apply and_iff_compat_l. split.
  - intros H s Hs Ho. apply str_in_occurs in Ho.
    assert (E : existsb (fun sens => str_in sens (lo k)) Main.sensitive_words = true).
    { apply existsb_exists. exists s. split; [apply list_elem_of_In, Hs | exact Ho]. }
    congruence.
  - intros H. apply not_true_is_false. intros E.
    apply existsb_exists in E as (s & Hs & Ho).
    apply (H s); [apply list_elem_of_In, Hs | apply str_in_occurs, Ho].
Qed.

(** ** The entry point *)


(** C10.  With [PORT] set to a text that [int()] rejects, [main] ends with
    the exception of [int()] itself: it is not turned into [SystemExit],
    and all that happened before is the first log line and the read of
    [PORT], so no error was logged.  The other way to fail shows the
    difference: when the server does not start, [main] logs the error and
    ends with [sys.exit(1)]. *)
Theorem bad_PORT_raises_out_of_main :
  (forall (w : world) (s : string) (e : exception),
     environ w !! "PORT" = Some s ->
     int_of_str (out w) s = Fails e ->
     exists w',
       Main.main tt w = (Raise (RException e), tt, w') /\
       after w
         [Log "__main__" INFO
            (Msg "Starting secure Python web application with Kubernetes support...");
          EnvGet "PORT"] w') /\
  (forall (w : world) (vb vk : string) (x : exception),
     environ w !! "PORT" = None ->
     import_bottle (out w) = Returns vb ->
     import_kubernetes (out w) = Returns vk ->
     (forall h p, bottle_run (out w) h p = Fails x) ->
     exists w' evs,
       Main.main tt w = (Raise (RSystemExit 1), tt, w') /\ after w evs w' /\
       last evs =
         Some (Log "__main__" ERROR
                 (Msg ("Error starting web application: " +:+ exc_msg x)))).
Proof.
  split.
  - intros w s e Hport Hint. unfold Main.main. unfold_program. cbn.
    rewrite Hport. cbn. rewrite Hint. cbn.
    eexists. split; [reflexivity | after_done].
  - intros w vb vk x Hport Hb Hk Hrun. unfold Main.main. unfold_program. cbn.
    rewrite Hport. cbn. rewrite Hb. cbn. rewrite Hk. cbn.
    repeat (first [rewrite Hrun | destruct_match]; cbn);
      do 2 eexists; (split; [reflexivity |]); (split; [after_done |]); reflexivity.
Qed.

Lemma bad_PORT_raises_out_of_main_witness :
  let w := boot [("PORT", "http")] laptop in
  exists w',
    Main.main tt w =
      (Raise (RException (mkException ValueError
                "invalid literal for int() with base 10: 'http'")), tt, w') /\
    after w
      [Log "__main__" INFO
         (Msg "Starting secure Python web application with Kubernetes support...");
       EnvGet "PORT"] w'.
Proof.
  apply (proj1 bad_PORT_raises_out_of_main (boot [("PORT", "http")] laptop) "http");
    reflexivity.
Defined.




(** C7.  The code at the input of the claim: with [MY_SECRET_X=1] in the
    environment, the snapshot that [main] logs has no [MY_SECRET_X], and
    the [env_variables] of [/api/info] has it, with its value. *)
Theorem secret_key_dropped_by_log_kept_by_info :
  (fun m : gmap string string => m !! "MY_SECRET_X")
    <$> logged_env_vars (trace (Main.main tt pod_world).2) = [None] /\
  match serve_GET "/api/info" pod_app pod_world with
  | (Ok (mkResponse 200 _ (Some (WebTest.RetDict d))), _, _) =>
      match d !! "env_variables" with
      | Some (VDict m) => m !! "MY_SECRET_X" = Some (VStr "1")
      | _ => False
      end
  | _ => False
  end.
Proof.
  split; vm_compute; reflexivity.
Qed.

(** * More of the code *)

(** ** The cluster client *)

(** X1.  [K8sClient()] looks for the token file once and calls one
    credential loader: the in-cluster one when the file is there, the
    kubeconfig one when not, never both.  It creates the API client only
    after the loader returned, and it sends nothing to the cluster. *)
Theorem K8sClient_picks_one_loader :
  forall w : world,
    exists c w' evs,
      new_K8sClient w = (Ok c, w') /\ after w evs w' /\
      count checks_token evs = 1 /\
      count loads_incluster evs =
        (if path_exists (out w) K8sClient.token_path then 1 else 0) /\
      count loads_kubeconfig evs =
        (if path_exists (out w) K8sClient.token_path then 0 else 1) /\
      count creates_api evs =
        match load_config (out w) with Returns _ => 1 | Fails _ => 0 end /\
      count cluster_request evs = 0.
Proof.
  intros w. unfold load_config. unfold_program. cbn.
  destruct (path_exists (out w) K8sClient.token_path); cbn;
    [destruct (load_incluster_config (out w)) | destruct (load_kube_config (out w))];
    cbn; try destruct (new_CoreV1Api (out w)); cbn;
    ran; auto 10.
Qed.

(** X2.  A client the constructor returns is in one of two shapes: flag
    [True] with the API client stored, or flag [False] without one.  A
    failed initialisation is logged as one warning that carries the text
    of the exception, a successful one logs no warning, and neither logs
    an error.  [in_cluster] records whether the token file was there. *)
Theorem K8sClient_failure_is_one_warning :
  forall w : world,
    exists c w' evs,
      new_K8sClient w = (Ok c, w') /\ after w evs w' /\
      K8sClient.in_cluster c = Some (path_exists (out w) K8sClient.token_path) /\
      logged ERROR evs = [] /\
      match load_config (out w), new_CoreV1Api (out w) with
      | Returns _, Returns h =>
          c = K8sClient.mk (K8sClient.in_cluster c) (Some h) (Some true) /\
          logged WARNING evs = []
      | Fails e, _ | Returns _, Fails e =>
          c = K8sClient.mk (K8sClient.in_cluster c) None (Some false) /\
          logged WARNING evs =
            [Msg ("Failed to initialize Kubernetes client: " +:+ exc_msg e)]
      end.
Proof.
  intros w. unfold load_config. unfold_program. cbn.
  destruct (path_exists (out w) K8sClient.token_path); cbn;
    [destruct (load_incluster_config (out w)) | destruct (load_kube_config (out w))];
    cbn; try destruct (new_CoreV1Api (out w)); cbn;
    ran; auto 10.
Qed.

(** X3.  On a disabled client [get_pod_info] returns the error payload and
    leaves the world as it was: it reads no variable, sends no request and
    logs nothing. *)
Theorem get_pod_info_disabled :
  forall (c : K8sClient.t) (w : world),
    Disabled c ->
    K8sClient.get_pod_info c w =
      (Ok (dict_of [("error", VStr "Not running in Kubernetes")]), c, w).
Proof.
  intros c w H. unfold_program. cbn. rewrite H. reflexivity.
Qed.

Lemma get_pod_info_disabled_witness :
  K8sClient.get_pod_info disabled_client pod_world =
    (Ok (dict_of [("error", VStr "Not running in Kubernetes")]),
     disabled_client, pod_world).
Proof.
  apply (get_pod_info_disabled disabled_client pod_world). reflexivity.
Defined.

(** X4.  When the lookup of the pod raises, [get_pod_info] does not: it
    logs the error once and returns [{error: str(e)}].  The run is the two
    reads of the environment, the one request and the log record. *)
Theorem get_pod_info_lookup_failure :
  forall (c : K8sClient.t) (w : world) (name : string) (e : exception),
    Enabled c ->
    environ w !! "POD_NAME" = Some name -> name <> "unknown" ->
    let namespace := default "default" (environ w !! "POD_NAMESPACE") in
    read_namespaced_pod (out w) name namespace = Fails e ->
    exists w',
      K8sClient.get_pod_info c w =
        (Ok (dict_of [("error", VStr (exc_msg e))]), c, w') /\
      after w
        [EnvGet "POD_NAMESPACE"; EnvGet "POD_NAME";
         ReadNamespacedPod name namespace;
         Log "k8s_utils" ERROR (Msg ("Error getting pod info: " +:+ exc_msg e))] w'.
Proof.
  intros c w name e [Hflag [api Hapi]] Hname Hne namespace Hread. subst namespace.
  unfold_program. cbn. rewrite Hflag. cbn. rewrite Hname. cbn.
  rewrite bool_decide_eq_true_2 by exact Hne. cbn.
  rewrite Hapi. cbn. unfold id in Hread. rewrite Hread. cbn.
  eexists. split; [reflexivity | after_done].
Qed.

Lemma get_pod_info_lookup_failure_witness :
  exists w',
    K8sClient.get_pod_info enabled_client
      (boot [("POD_NAME", "web-9")] pod) =
      (Ok (dict_of [("error", VStr "(404) Reason: Not Found")]), enabled_client, w') /\
    after (boot [("POD_NAME", "web-9")] pod)
      [EnvGet "POD_NAMESPACE"; EnvGet "POD_NAME";
       ReadNamespacedPod "web-9" "default";
       Log "k8s_utils" ERROR (Msg "Error getting pod info: (404) Reason: Not Found")] w'.
Proof.
  apply (get_pod_info_lookup_failure enabled_client
           (boot [("POD_NAME", "web-9")] pod) "web-9"
           (api_exception "(404) Reason: Not Found")).
  - split; [reflexivity | eexists; reflexivity].
  - reflexivity.
  - discriminate.
  - reflexivity.
Defined.

(** X5.  When the lookup returns a pod that has its metadata, spec and
    status, [get_pod_info] reports what the cluster says, not what the
    environment says: name and namespace of the metadata, node of the
    spec, address of the status, and the creation time formatted with
    [%Y-%m-%d %H:%M:%S], or [None] when the pod has no creation time.  A
    field the cluster left empty is [None].  Nothing is logged. *)
Theorem get_pod_info_reports_the_pod :
  forall (c : K8sClient.t) (w : world) (name : string)
         (md : V1ObjectMeta) (sp : V1PodSpec) (st : V1PodStatus),
    Enabled c ->
    environ w !! "POD_NAME" = Some name -> name <> "unknown" ->
    let namespace := default "default" (environ w !! "POD_NAMESPACE") in
    read_namespaced_pod (out w) name namespace =
      Returns (mkPod (Some md) (Some sp) (Some st)) ->
    exists w',
      K8sClient.get_pod_info c w =
        (Ok (dict_of
               [("pod_name", VOptStr (meta_name md));
                ("namespace", VOptStr (meta_namespace md));
                ("node", VOptStr (node_name sp));
                ("pod_ip", VOptStr (pod_ip st));
                ("created",
                 match creation_timestamp md with
                 | Some d => VStr (strftime (out w) d "%Y-%m-%d %H:%M:%S")
                 | None => VNone
                 end)]), c, w') /\
      after w
        [EnvGet "POD_NAMESPACE"; EnvGet "POD_NAME"; ReadNamespacedPod name namespace] w'.
Proof.
  intros c w name md sp st [Hflag [api Hapi]] Hname Hne namespace Hread.
  subst namespace. unfold_program. cbn. rewrite Hflag. cbn. rewrite Hname. cbn.
  rewrite bool_decide_eq_true_2 by exact Hne. cbn.
  rewrite Hapi. cbn. unfold id in Hread. rewrite Hread. cbn.
  destruct (creation_timestamp md); cbn;
    (eexists; split; [reflexivity | after_done]).
Qed.

Lemma get_pod_info_reports_the_pod_witness :
  exists w',
    K8sClient.get_pod_info enabled_client pod_world =
      (Ok (dict_of [("pod_name", VStr "web-0"); ("namespace", VStr "prod");
                    ("node", VStr "node-a"); ("pod_ip", VStr "10.0.0.7");
                    ("created", VStr "2024-01-01 00:00:00")]),
       enabled_client, w') /\
    after pod_world
      [EnvGet "POD_NAMESPACE"; EnvGet "POD_NAME"; ReadNamespacedPod "web-0" "prod"] w'.
Proof.
  apply (get_pod_info_reports_the_pod enabled_client pod_world "web-0"
           (mkMeta (Some "web-0") (Some "prod") (Some (mkDatetime 2024 1 1 0 0 0)))
           (mkSpec (Some "node-a")) (mkStatus (Some "10.0.0.7"))).
  - split; [reflexivity | eexists; reflexivity].
  - reflexivity.
  - discriminate.
  - reflexivity.
Defined.

(** X6.  A pod that comes back without metadata, spec or status does not
    make [get_pod_info] raise.  The attribute access on [None] is caught
    like any other error: the answer is [{error: ...}] with the text of
    the [AttributeError], naming the first attribute that could not be
    read, and the error is logged once. *)
Theorem get_pod_info_incomplete_pod :
  forall (c : K8sClient.t) (w : world) (name : string) (pod : V1Pod),
    Enabled c ->
    environ w !! "POD_NAME" = Some name -> name <> "unknown" ->
    let namespace := default "default" (environ w !! "POD_NAMESPACE") in
    read_namespaced_pod (out w) name namespace = Returns pod ->
    metadata pod = None \/ spec pod = None \/ status pod = None ->
    let missing :=
      match metadata pod, spec pod with
      | None, _ => "name"
      | Some _, None => "node_name"
      | Some _, Some _ => "pod_ip"
      end in
    let text := "'NoneType' object has no attribute '" +:+ missing +:+ "'" in
    exists w',
      K8sClient.get_pod_info c w = (Ok (dict_of [("error", VStr text)]), c, w') /\
      after w
        [EnvGet "POD_NAMESPACE"; EnvGet "POD_NAME"; ReadNamespacedPod name namespace;
         Log "k8s_utils" ERROR (Msg ("Error getting pod info: " +:+ text))] w'.
Proof.
  intros c w name pod [Hflag [api Hapi]] Hname Hne namespace Hread Hnone.
  subst namespace. unfold_program. cbn. rewrite Hflag. cbn. rewrite Hname. cbn.
  rewrite bool_decide_eq_true_2 by exact Hne. cbn.
  rewrite Hapi. cbn. unfold id in Hread. rewrite Hread. cbn.
  destruct pod as [[md|] [sp|] [st|]]; cbn in *;
    try (destruct Hnone as [? | [? | ?]]; discriminate);
    (eexists; split; [reflexivity | after_done]).
Qed.

Lemma get_pod_info_incomplete_pod_witness :
  let w := mkWorld (list_to_map [("POD_NAME", "web-0")])
             (mkOutside (fun _ => true) (Returns tt) (Returns tt)
                (Returns CoreV1Api_handle)
                (fun _ _ => Returns (mkPod (Some (mkMeta (Some "web-0") None None))
                                           None None))
                (Fails (api_exception "down")) (Returns "0.12.25") (Returns "28.1.0")
                "3.11" "Linux" "CPython" ascii_int str_lower (fun _ _ => "")
                (fun _ _ => Returns tt))
             [] default_content_type in
  exists w',
    K8sClient.get_pod_info enabled_client w =
      (Ok (dict_of [("error",
                     VStr "'NoneType' object has no attribute 'node_name'")]),
       enabled_client, w') /\
    after w
      [EnvGet "POD_NAMESPACE"; EnvGet "POD_NAME"; ReadNamespacedPod "web-0" "default";
       Log "k8s_utils" ERROR
         (Msg "Error getting pod info: 'NoneType' object has no attribute 'node_name'")] w'.
Proof.
  intros w.
  apply (get_pod_info_incomplete_pod enabled_client w "web-0"
           (mkPod (Some (mkMeta (Some "web-0") None None)) None None)).
  - split; [reflexivity | eexists; reflexivity].
  - reflexivity.
  - discriminate.
  - reflexivity.
  - right. left. reflexivity.
Defined.

(** ** The handlers *)

(** X7.  [/api/kubernetes] on an enabled client whose two queries both
    fail still answers 200: each failure is data in the body, under
    [pod_info] and [cluster_info].  The pod is looked up before the
    version is asked for, and each failure is logged once. *)
Theorem kubernetes_info_failures_are_data :
  forall (self : WebTest.t) (c : K8sClient.t) (w : world)
         (name : string) (e1 e2 : exception),
    serving self ->
    WebTest.k8s_client self = Some c -> Enabled c ->
    environ w !! "POD_NAME" = Some name -> name <> "unknown" ->
    let namespace := default "default" (environ w !! "POD_NAMESPACE") in
    read_namespaced_pod (out w) name namespace = Fails e1 ->
    version_get_code (out w) = Fails e2 ->
    exists w',
      serve_GET "/api/kubernetes" self w =
        (Ok (mkResponse 200 "application/json"
               (Some (WebTest.RetDict
                        (dict_of
                           [("running_in_kubernetes", VBool true);
                            ("pod_info", VDict (dict_of [("error", VStr (exc_msg e1))]));
                            ("cluster_info",
                             VDict (dict_of [("error", VStr (exc_msg e2))]))])))),
         self, w') /\
      after w
        [EnvGet "POD_NAMESPACE"; EnvGet "POD_NAME"; ReadNamespacedPod name namespace;
         Log "k8s_utils" ERROR (Msg ("Error getting pod info: " +:+ exc_msg e1));
         VersionGetCode;
         Log "k8s_utils" ERROR (Msg ("Error getting cluster info: " +:+ exc_msg e2))] w'.
Proof.
  intros self c w name e1 e2 Hs Hc [Hflag [api Hapi]] Hname Hne namespace Hread Hver.
  subst namespace.
  destruct (serving_inv self Hs) as (h & p & a & e & c' & -> & _).
  cbn in Hc. injection Hc as ->.
  unfold_handlers. cbn. repeat (rewrite Hflag; cbn).
  unfold_program. cbn. repeat (rewrite Hflag; cbn).
  rewrite Hname. cbn. rewrite bool_decide_eq_true_2 by exact Hne. cbn.
  rewrite Hapi. cbn. unfold id in Hread. rewrite Hread. cbn.
  repeat (rewrite Hflag; cbn). rewrite Hver. cbn.
  eexists. split; [reflexivity | after_done].
Qed.

Lemma kubernetes_info_failures_are_data_witness :
  let w := boot [("POD_NAME", "web-9")] laptop in
  exists w',
    serve_GET "/api/kubernetes" pod_app w =
      (Ok (mkResponse 200 "application/json"
             (Some (WebTest.RetDict
                      (dict_of
                         [("running_in_kubernetes", VBool true);
                          ("pod_info", VDict (dict_of [("error", VStr "Connection refused")]));
                          ("cluster_info",
                           VDict (dict_of [("error", VStr "Connection refused")]))])))),
       pod_app, w') /\
    after w
      [EnvGet "POD_NAMESPACE"; EnvGet "POD_NAME"; ReadNamespacedPod "web-9" "default";
       Log "k8s_utils" ERROR (Msg "Error getting pod info: Connection refused");
       VersionGetCode;
       Log "k8s_utils" ERROR (Msg "Error getting cluster info: Connection refused")] w'.
Proof.
  intros w.
  apply (kubernetes_info_failures_are_data pod_app enabled_client w "web-9"
           (api_exception "Connection refused") (api_exception "Connection refused")).
  - exists "0.0.0.0", 8080%Z, pod_world. reflexivity.
  - reflexivity.
  - split; [reflexivity | eexists; reflexivity].
  - reflexivity.
  - discriminate.
  - reflexivity.
  - reflexivity.
Defined.

(** X8.  Serving [/api/kubernetes] sends at most two requests to the
    cluster, and none at all when the client is disabled: then the run
    leaves no event behind. *)
Theorem kubernetes_info_at_most_two_requests :
  forall (self : WebTest.t) (w : world),
    serving self ->
    exists r w' evs,
      serve_GET "/api/kubernetes" self w = (Ok r, self, w') /\ after w evs w' /\
      count cluster_request evs <= 2 /\
      status_code r = 200%Z /\
      (forall c, WebTest.k8s_client self = Some c -> Disabled c -> evs = []).
Proof.
  intros self w Hs.
  destruct (serving_inv self Hs) as (h & p & a & e & c & -> & [D | [D [api Hapi]]]);
    try red in D.
  - unfold_handlers. cbn. repeat (rewrite D; cbn).
    ran. repeat split; auto.
  - unfold_handlers. cbn. repeat (rewrite D; cbn).
    unfold_program. cbn.
    repeat (first [rewrite D | rewrite Hapi | destruct_match]; cbn);
      ran; (split; [lia |]); (split; [reflexivity |]);
      intros c' [= <-] D'; red in D'; congruence.
Qed.

Lemma kubernetes_info_at_most_two_requests_witness :
  exists r w' evs,
    serve_GET "/api/kubernetes" laptop_app pod_world = (Ok r, laptop_app, w') /\
    after pod_world evs w' /\
    count cluster_request evs <= 2 /\
    status_code r = 200%Z /\
    (forall c, WebTest.k8s_client laptop_app = Some c -> Disabled c -> evs = []).
Proof.
  apply (kubernetes_info_at_most_two_requests laptop_app pod_world).
  exists "0.0.0.0", 8080%Z, laptop_world. reflexivity.
Defined.

(** X9.  The constructor registers six routes and no two of them share a
    path, so no route hides another: a path is routed to a callback
    exactly when [_setup_routes] registered that pair. *)
Theorem routes_are_the_six :
  forall self : WebTest.t,
    serving self ->
    exists a,
      WebTest.app self = Some a /\
      WebTest.routes a = route_table /\
      NoDup (route_table.*1) /\
      forall path cb,
        route_lookup path (WebTest.routes a) = Some cb <-> In (path, cb) route_table.
Proof.
  intros self Hs.
  destruct (serving_inv self Hs) as (h & p & a & e & c & -> & _).
  eexists. split; [reflexivity |]. split; [reflexivity |]. split.
  - apply (bool_decide_unpack _). vm_compute. exact I.
  - intros path cb.
    change (route_lookup path route_table = Some cb <-> In (path, cb) route_table).
    unfold route_lookup, route_table. cbn [fold_left fst snd In].
    repeat match goal with
           | |- context [String.eqb ?x ?y] =>
               destruct (String.eqb_spec x y); [subst |]
           end;
      try congruence;
      (split; [intros H; inversion H; subst; auto 10
              | intros H; intuition congruence]).
Qed.

Lemma routes_are_the_six_witness :
  exists a,
    WebTest.app laptop_app = Some a /\
    WebTest.routes a = route_table /\
    NoDup (route_table.*1) /\
    forall path cb,
      route_lookup path (WebTest.routes a) = Some cb <-> In (path, cb) route_table.
Proof.
  apply (routes_are_the_six laptop_app).
  exists "0.0.0.0", 8080%Z, laptop_world. reflexivity.
Defined.

(** X10.  On an object the constructor returned, five of the six handlers
    always return.  The one that can raise is [info], and only with the
    exception of its own [import bottle].  Whatever happens, the object is
    the same afterwards. *)
Theorem only_info_can_raise :
  forall (self : WebTest.t) (cb : WebTest.callback) (w : world),
    serving self ->
    match call_callback cb self w with
    | (Ok _, self', _) => self' = self
    | (Raise r, self', _) =>
        self' = self /\ cb = WebTest.cb_info /\
        exists e, import_bottle (out w) = Fails e /\ r = RException e
    end.
Proof.
  intros self cb w Hs.
  destruct (serving_inv self Hs) as (h & p & a & e & c & -> & [D | [D [api Hapi]]]);
    try red in D;
    destruct cb; unfold call_callback; unfold_program; cbn;
    repeat (first [rewrite D | rewrite Hapi | destruct_match]; cbn);
    eauto.
Qed.

Lemma only_info_can_raise_witness :
  match call_callback WebTest.cb_kubernetes_info pod_app laptop_world with
  | (Ok _, self', _) => self' = pod_app
  | (Raise r, self', _) =>
      self' = pod_app /\ WebTest.cb_kubernetes_info = WebTest.cb_info /\
      exists e, import_bottle (out laptop_world) = Fails e /\ r = RException e
  end.
Proof.
  apply (only_info_can_raise pod_app WebTest.cb_kubernetes_info laptop_world).
  exists "0.0.0.0", 8080%Z, pod_world. reflexivity.
Defined.

Lemma str_append_assoc (a b c : string) : (a +:+ b) +:+ c = a +:+ (b +:+ c).
Proof.
  induction a as [| x a IH]; [reflexivity |].
  change (String x ((a +:+ b) +:+ c) = String x (a +:+ (b +:+ c))).
  rewrite IH. reflexivity.
Qed.

Lemma occurs_in_after (s x y : string) : occurs_in s y -> occurs_in s (x +:+ y).
Proof.
  intros (b & r & ->). exists (x +:+ b), r. rewrite str_append_assoc. reflexivity.
Qed.

(** X11.  The page at [/] is HTML and documents every route the
    constructor registered: for each of them it has the entry
    [<strong>GET path</strong>], whatever the name and the environment of
    the application are. *)
Theorem index_lists_every_route :
  forall (self : WebTest.t) (w : world),
    serving self ->
    exists page w',
      WebTest.index self w = (Ok (WebTest.RetStr page), self, w') /\
      response_content_type w' = "text/html" /\
      forall path cb,
        In (path, cb) route_table -> occurs_in (endpoint_entry path) page.
Proof.
  intros self w Hs.
  destruct (serving_inv self Hs) as (h & p & a & e & c & -> & _).
  unfold_program. cbn. do 2 eexists. split; [reflexivity |]. split; [reflexivity |].
  intros path cb Hin. unfold WebTest.index_html.
  do 6 apply occurs_in_after. apply str_in_occurs.
  unfold route_table in Hin. cbn [In] in Hin.
  repeat (destruct Hin as [[= <- _] | Hin]; [vm_compute; reflexivity |]).
  destruct Hin.
Qed.

Lemma index_lists_every_route_witness :
  exists page w',
    WebTest.index pod_app pod_world = (Ok (WebTest.RetStr page), pod_app, w') /\
    response_content_type w' = "text/html" /\
    forall path cb,
      In (path, cb) route_table -> occurs_in (endpoint_entry path) page.
Proof.
  apply (index_lists_every_route pod_app pod_world).
  exists "0.0.0.0", 8080%Z, pod_world. reflexivity.
Defined.

(** X12.  [run], on the object [WebTest(host, port)] returned, starts the
    server once, on that host and that port, as the last thing it does.
    Before that it logs the flag of the client and one line for each
    registered route, in the order of registration.  It handles nothing
    itself: it returns when the server returns and raises what the server
    raises. *)
Theorem run_starts_the_server_once :
  forall (host : string) (port : Z) (w0 : world) (self : WebTest.t) (w : world),
    (new_WebTest host port w0).1 = Ok self ->
    exists c flag w' pre,
      WebTest.k8s_client self = Some c /\
      K8sClient.running_in_k8s c = Some flag /\
      WebTest.run self w =
        (match bottle_run (out w) host port with
         | Returns _ => Ok tt
         | Fails e => Raise (RException e)
         end, self, w') /\
      after w (pre ++ map endpoint_log_line route_table ++ [BottleRun host port]) w' /\
      In (Log "webtest" INFO (MsgRunningInK8s flag)) pre /\
      count starts_server pre = 0.
Proof.
  intros host port w0 self w H.
  destruct (new_WebTest_spec host port w0) as (c & w1 & evs & E & _ & _ & _ & _ & D).
  rewrite E in H. cbn in H. injection H as <-.
  assert (exists flag, K8sClient.running_in_k8s c = Some flag) as [flag Hf].
  { destruct D as [D | [D _]]; try red in D; eauto. }
  exists c, flag. unfold_program. cbn. rewrite Hf. cbn.
  destruct (bottle_run (out w) host port) as [[] | x]; cbn;
    (eexists;
     exists [Log "webtest" INFO
               (Msg ("Starting " +:+ default "webtest" (environ w0 !! "APP_NAME") +:+
                     " server in " +:+
                     default "development" (environ w0 !! "ENVIRONMENT") +:+
                     " environment"));
             Log "webtest" INFO (MsgListening host port);
             Log "webtest" INFO (MsgRunningInK8s flag);
             Log "webtest" INFO (Msg "Available endpoints:")];
     split; [reflexivity |]; split; [reflexivity |];
     split; [reflexivity |];
     split; [unfold after; trace_norm; repeat split |];
     split; [cbn; auto 10 | reflexivity]).
Qed.

Lemma run_starts_the_server_once_witness :
  exists c flag w' pre,
    WebTest.k8s_client laptop_app = Some c /\
    K8sClient.running_in_k8s c = Some flag /\
    WebTest.run laptop_app pod_world = (Ok tt, laptop_app, w') /\
    after pod_world
      (pre ++ map endpoint_log_line route_table ++ [BottleRun "0.0.0.0" 8080%Z]) w' /\
    In (Log "webtest" INFO (MsgRunningInK8s flag)) pre /\
    count starts_server pre = 0.
Proof.
  apply (run_starts_the_server_once "0.0.0.0" 8080%Z laptop_world laptop_app pod_world).
  reflexivity.
Defined.

(** ** The two filters, side by side *)

(** X13.  What the startup log shows, [/api/info] shows too, unless the
    key is [path] up to case: the words [/api/info] hides, other than
    [path], are words the log searches for.  This holds whatever
    [str.lower] does to a key. *)
Theorem log_shows_no_more_than_info :
  forall (lo : string -> string) (env : gmap string string) (k x : string),
    Main.env_vars lo env !! k = Some x ->
    lo k <> "path" ->
    WebTest.info_env_variables lo env !! k = Some x.
Proof.
  intros lo env k x H Hpath.
  apply env_vars_lookup in H as [Hk Hno].
  unfold WebTest.info_env_variables. apply map_lookup_filter_Some.
  split; [exact Hk |]. cbn [fst]. unfold WebTest.info_hidden.
  rewrite !elem_of_cons, elem_of_nil.
  intros [E | [E | [E | [E | [E | [E | []]]]]]]; [contradiction | | | | |];
    apply (Hno (lo k));
    try (rewrite E; unfold Main.sensitive_words; set_solver);
    rewrite E; exists "", ""; reflexivity.
Qed.

Lemma log_shows_no_more_than_info_witness :
  WebTest.info_env_variables str_lower (environ pod_world) !! "APP_NAME" = Some "shop".
Proof.
  apply (log_shows_no_more_than_info str_lower (environ pod_world) "APP_NAME" "shop").
  - reflexivity.
  - discriminate.
Defined.

(** X14.  Both filters ignore the case of a key: two variables whose names
    have the same lower-case form, by [str.lower] as the interpreter has
    it, are both shown or both hidden, by the log and by [/api/info]. *)
Theorem filters_ignore_case :
  forall (lo : string -> string) (env : gmap string string) (k1 k2 x1 x2 : string),
    ci_equal lo k1 k2 ->
    env !! k1 = Some x1 -> env !! k2 = Some x2 ->
    (Main.env_vars lo env !! k1 = Some x1 <-> Main.env_vars lo env !! k2 = Some x2) /\
    (WebTest.info_env_variables lo env !! k1 = Some x1 <->
     WebTest.info_env_variables lo env !! k2 = Some x2).
Proof.
  intros lo env k1 k2 x1 x2 Hci H1 H2. unfold ci_equal in Hci.
  unfold WebTest.info_env_variables.
  rewrite !env_vars_lookup, !map_lookup_filter_Some. cbn [fst]. rewrite Hci.
  tauto.
Qed.

Lemma filters_ignore_case_witness :
  let env : gmap string string := list_to_map [("Api_Key", "a"); ("API_KEY", "b")] in
  (Main.env_vars str_lower env !! "Api_Key" = Some "a" <->
   Main.env_vars str_lower env !! "API_KEY" = Some "b") /\
  (WebTest.info_env_variables str_lower env !! "Api_Key" = Some "a" <->
   WebTest.info_env_variables str_lower env !! "API_KEY" = Some "b").
Proof.
  intros env.
  apply (filters_ignore_case str_lower env "Api_Key" "API_KEY" "a" "b"); reflexivity.
Defined.

(** With a [lower] that does what Python does to the Kelvin sign, both
    filters hide a variable named [KEY] with that sign, as the code
    does. *)
Lemma both_filters_hide_kelvin_KEY (lo : string -> string) (env : gmap string string) :
  lo kelvin_KEY = "key" ->
  WebTest.info_env_variables lo env !! kelvin_KEY = None /\
  Main.env_vars lo env !! kelvin_KEY = None.
Proof.
  intros H. split.
  - destruct (WebTest.info_env_variables lo env !! kelvin_KEY) as [x |] eqn:E;
      [| reflexivity].
    apply map_lookup_filter_Some in E as [_ N]. cbn [fst] in N. rewrite H in N.
    exfalso. apply N. unfold WebTest.info_hidden. set_solver.
  - destruct (Main.env_vars lo env !! kelvin_KEY) as [x |] eqn:E; [| reflexivity].
    apply env_vars_lookup in E as [_ N]. exfalso. apply (N "key").
    + unfold Main.sensitive_words. set_solver.
    + rewrite H. exists "", "". reflexivity.
Qed.

(** ** The entry point *)

(** X15.  [main] starts the server on the host and the port of the
    environment: [HOST], or [0.0.0.0], and [PORT] as an integer, or 8080.
    It does so once, with one cluster client built before (the check for
    the token file comes earlier in the trace than the start of the
    server), when Bottle imports; a missing Kubernetes package is only a
    warning.  [main]
    returns when the server returns, and exits with status 1 when the
    server raises. *)
Theorem main_serves_on_HOST_and_PORT :
  forall (w : world) (p : Z) (vb : string),
    match environ w !! "PORT" with
    | Some s => int_of_str (out w) s = Returns p
    | None => p = 8080%Z
    end ->
    import_bottle (out w) = Returns vb ->
    match import_kubernetes (out w) with
    | Returns _ => True
    | Fails e => is_ImportError e = true
    end ->
    let host := default "0.0.0.0" (environ w !! "HOST") in
    exists w' evs,
      Main.main tt w =
        (match bottle_run (out w) host p with
         | Returns _ => Ok tt
         | Fails _ => Raise (RSystemExit 1)
         end, tt, w') /\
      after w evs w' /\
      count starts_server evs = 1 /\
      In (BottleRun host p) evs /\
      count checks_token evs = 1 /\
      exists i j,
        position checks_token evs = Some i /\
        position starts_server evs = Some j /\ i < j.
Proof.
  intros w p vb Hport Hb Hk host. subst host.
  remember (match bottle_run (out w) (default "0.0.0.0" (environ w !! "HOST")) p with
            | Returns _ => Ok tt
            | Fails _ => Raise (RSystemExit 1)
            end) as expected eqn:Hexp.
  unfold id in Hexp.
  unfold Main.main. unfold_program. cbn.
  (destruct (environ w !! "PORT") as [s |] eqn:Eport; cbn;
   [rewrite Hport | subst p]; cbn; rewrite Hb; cbn);
    (destruct (import_kubernetes (out w)) as [vk | e]; cbn;
     [| unfold is_ImportError in *; destruct (exc_type e); try discriminate Hk; cbn]);
    repeat (destruct_match; cbn);
    subst expected;
    (do 2 eexists; split; [reflexivity |]; split; [after_done |];
     split; [reflexivity |];
     split; [cbn; repeat (first [left; reflexivity | right]) |];
     split; [reflexivity |];
     do 2 eexists; split; [reflexivity |]; split; [reflexivity | lia]).
Qed.

Lemma main_serves_on_HOST_and_PORT_witness :
  let w := boot [("PORT", "9090"); ("HOST", "127.0.0.1")] laptop in
  exists w' evs,
    Main.main tt w = (Ok tt, tt, w') /\
    after w evs w' /\
    count starts_server evs = 1 /\
    In (BottleRun "127.0.0.1" 9090%Z) evs /\
    count checks_token evs = 1 /\
    exists i j,
      position checks_token evs = Some i /\
      position starts_server evs = Some j /\ i < j.
Proof.
  intros w.
  apply (main_serves_on_HOST_and_PORT w 9090%Z "0.12.25"); [reflexivity | reflexivity | exact I].
Defined.

(** X16.  The ways [main] can end.  It returns, or it exits with status
    1, or it lets an exception out; and the only exceptions it lets out
    are the one of [int()] on [PORT] and those of the two imports that are
    no [ImportError]. *)
Theorem main_ends_in_one_of_three_ways :
  forall w : world,
    exists r w',
      Main.main tt w = (r, tt, w') /\
      (r = Ok tt \/ r = Raise (RSystemExit 1) \/
       exists e, r = Raise (RException e) /\
         ((exists s, environ w !! "PORT" = Some s /\ int_of_str (out w) s = Fails e) \/
          (import_bottle (out w) = Fails e /\ is_ImportError e = false) \/
          (import_kubernetes (out w) = Fails e /\ is_ImportError e = false))).
Proof.
  intros w. unfold Main.main. exec;
    repeat match goal with u : unit |- _ => destruct u end;
    try match goal with
        | H : from_option inl _ ?o = inl _ |- _ =>
            destruct o eqn:?; cbn in H; [injection H as -> | discriminate H]
        end;
    (do 2 eexists; split; [reflexivity |]);
    first [left; reflexivity
          | right; left; reflexivity
          | right; right; eexists; split; [reflexivity |];
            first [left; eexists; split; [reflexivity | eassumption]
                  | right; left; split;
                    [first [reflexivity | assumption]
                    | assumption]
                  | right; right; split;
                    [first [reflexivity | assumption]
                    | assumption]]].
Qed.

(** X17.  When [import bottle] raises an [ImportError], [main] logs the
    error and exits with status 1 before it builds anything: no client, no
    routes, no server. *)
Theorem main_without_bottle_exits :
  forall (w : world) (p : Z) (e : exception),
    match environ w !! "PORT" with
    | Some s => int_of_str (out w) s = Returns p
    | None => p = 8080%Z
    end ->
    import_bottle (out w) = Fails e ->
    is_ImportError e = true ->
    exists w',
      Main.main tt w = (Raise (RSystemExit 1), tt, w') /\
      after w
        [Log "__main__" INFO
           (Msg "Starting secure Python web application with Kubernetes support...");
         EnvGet "PORT"; EnvGet "HOST"; EnvGet "APP_NAME"; EnvGet "ENVIRONMENT";
         Import "bottle";
         Log "__main__" ERROR (Msg ("Error importing Bottle: " +:+ exc_msg e))] w'.
Proof.
  intros w p e Hport Hb He.
  unfold Main.main. unfold_program. cbn.
  destruct (environ w !! "PORT") as [s |] eqn:Eport; cbn;
    [rewrite Hport | subst p]; cbn; rewrite Hb; cbn; rewrite He; cbn;
    (eexists; split; [reflexivity | after_done]).
Qed.

Lemma main_without_bottle_exits_witness :
  let o := mkOutside (fun _ => false) (Fails (config_exception "no"))
             (Fails (config_exception "no")) (Returns CoreV1Api_handle)
             (fun _ _ => Fails (api_exception "no")) (Fails (api_exception "no"))
             (Fails (mkException ModuleNotFoundError "No module named 'bottle'"))
             (Returns "28.1.0") "3.11" "Linux" "CPython" ascii_int str_lower
             (fun _ _ => "") (fun _ _ => Returns tt) in
  let w := mkWorld ∅ o [] default_content_type in
  exists w',
    Main.main tt w = (Raise (RSystemExit 1), tt, w') /\
    after w
      [Log "__main__" INFO
         (Msg "Starting secure Python web application with Kubernetes support...");
       EnvGet "PORT"; EnvGet "HOST"; EnvGet "APP_NAME"; EnvGet "ENVIRONMENT";
       Import "bottle";
       Log "__main__" ERROR (Msg "Error importing Bottle: No module named 'bottle'")] w'.
Proof.
  intros o w.
  apply (main_without_bottle_exits w 8080%Z
           (mkException ModuleNotFoundError "No module named 'bottle'"));
    reflexivity.
Defined.

(** ** The constructor and [/api/info] *)

(** X18.  [WebTest(host, port)] always returns an object.  It keeps the
    host and the port it was given, builds one cluster client, whose flag
    says whether the credentials loaded and the API client was created,
    and sends nothing to the cluster: a process starts the same with or
    without a reachable cluster. *)
Theorem WebTest_constructor_never_fails :
  forall (host : string) (port : Z) (w : world),
    exists self c w' evs,
      new_WebTest host port w = (Ok self, w') /\ after w evs w' /\
      WebTest.host self = Some host /\
      WebTest.port self = Some port /\
      WebTest.k8s_client self = Some c /\
      K8sClient.running_in_k8s c =
        Some match load_config (out w), new_CoreV1Api (out w) with
             | Returns _, Returns _ => true
             | _, _ => false
             end /\
      count checks_token evs = 1 /\
      count cluster_request evs = 0 /\
      count starts_server evs = 0.
Proof.
  intros host port w. unfold load_config. unfold_program. cbn.
  destruct (path_exists (out w) K8sClient.token_path); cbn;
    [destruct (load_incluster_config (out w)) | destruct (load_kube_config (out w))];
    cbn; try destruct (new_CoreV1Api (out w)); cbn;
    do 4 eexists; (split; [reflexivity |]); (split; [after_done |]);
    cbn; auto 10.
Qed.

(** X19.  The answer of [/api/info] has seven keys.  Its [app_name] and
    [environment] are those read when the object was built, while its
    [env_variables] is taken from the environment of the moment of the
    request: after a change of [APP_NAME] the two disagree.  Serving it
    imports Bottle, lists the environment, and asks nothing of the
    cluster. *)
Theorem info_mixes_old_name_and_current_environment :
  forall (host : string) (port : Z) (w0 : world) (self : WebTest.t)
         (w : world) (v : string),
    (new_WebTest host port w0).1 = Ok self ->
    import_bottle (out w) = Returns v ->
    exists d w',
      serve_GET "/api/info" self w =
        (Ok (mkResponse 200 "application/json" (Some (WebTest.RetDict d))), self, w') /\
      after w [Import "bottle"; EnvItems] w' /\
      dom d = {["python_version"; "platform"; "implementation"; "bottle_version";
                "app_name"; "environment"; "env_variables"]} /\
      d !! "app_name" = Some (VStr (default "webtest" (environ w0 !! "APP_NAME"))) /\
      d !! "environment" =
        Some (VStr (default "development" (environ w0 !! "ENVIRONMENT"))) /\
      d !! "env_variables" =
        Some (VDict (VStr <$> WebTest.info_env_variables (lower (out w)) (environ w))) /\
      d !! "bottle_version" = Some (VStr v) /\
      d !! "python_version" = Some (VStr (sys_version (out w))).
Proof.
  intros host port w0 self w v H Hv.
  destruct (new_WebTest_spec host port w0) as (c & w1 & evs & E & _).
  rewrite E in H. cbn in H. injection H as <-.
  unfold_handlers. cbn. rewrite Hv. cbn.
  do 2 eexists. split; [reflexivity |]. split; [after_done |].
  split; [| repeat split].
  apply (bool_decide_unpack _). vm_compute. exact I.
Qed.

Lemma info_mixes_old_name_and_current_environment_witness :
  exists d w',
    serve_GET "/api/info" laptop_app pod_world =
      (Ok (mkResponse 200 "application/json" (Some (WebTest.RetDict d))),
       laptop_app, w') /\
    after pod_world [Import "bottle"; EnvItems] w' /\
    dom d = {["python_version"; "platform"; "implementation"; "bottle_version";
              "app_name"; "environment"; "env_variables"]} /\
    d !! "app_name" = Some (VStr "webtest") /\
    d !! "environment" = Some (VStr "development") /\
    d !! "env_variables" =
      Some (VDict (VStr <$> WebTest.info_env_variables (lower (out pod_world))
                               (environ pod_world))) /\
    d !! "bottle_version" = Some (VStr "0.12.25") /\
    d !! "python_version" = Some (VStr "3.11.6 (main)").
Proof.
  apply (info_mixes_old_name_and_current_environment
           "0.0.0.0" 8080%Z laptop_world laptop_app pod_world "0.12.25");
    reflexivity.
Defined.
